(** * node-rest-generate: the option-to-artifact mapping of the generator

    A shallow embedding of [src/types/project.ts] (the configuration model)
    and [src/utils/generator.ts] (the dependency resolver, the file-content
    synthesizer and the generation sequence), followed by the properties of
    the specification that concern them.

    - A [Record<string, string>] is a finite map [gmap string string].
    - The asynchronous, file-writing functions live in a state-and-error
      monad [Promise] over an in-memory file system; [await] is bind.
    - Paths are relative to the directory the generator is pointed at:
      the theorems run the generator with [projectDir = "."]. *)

From Stdlib Require Import Ascii String List.
From stdpp Require Import base decidable option list strings gmap finite.

Local Open Scope string_scope.
Local Open Scope list_scope.
Local Open Scope stdpp_scope.

(** ** Strings *)

Definition dquote : string := String "034"%char EmptyString.
Definition newline : string := String "010"%char EmptyString.

(** [haystack.includes(needle)] on strings. *)
Fixpoint str_includes (needle haystack : string) : bool :=
  String.prefix needle haystack ||
  match haystack with
  | EmptyString => false
  | String _ rest => str_includes needle rest
  end.

(** [s.startsWith(p)] and [s.endsWith(p)]. *)
Definition startsWith (p s : string) : bool := String.prefix p s.

Definition endsWith (p s : string) : bool :=
  let n := String.length s in
  let k := String.length p in
  (k <=? n)%nat && String.eqb (String.substring (n - k) k s) p.

(** ** src/types/project.ts *)

Inductive Framework := express.
Inductive Database := mongodb | database_none.
Inductive ORM := mongoose | orm_none.
Inductive Language := typescript | javascript.
Inductive ValidationLibrary := joi | zod.
Inductive AuthStrategy := jwt | session | oauth.
Inductive Feature := auth | validation | swagger | docker | tests.

#[global] Instance Framework_eq_dec : EqDecision Framework.
Proof. solve_decision. Defined.
#[global] Instance Database_eq_dec : EqDecision Database.
Proof. solve_decision. Defined.
#[global] Instance ORM_eq_dec : EqDecision ORM.
Proof. solve_decision. Defined.
#[global] Instance Language_eq_dec : EqDecision Language.
Proof. solve_decision. Defined.
#[global] Instance ValidationLibrary_eq_dec : EqDecision ValidationLibrary.
Proof. solve_decision. Defined.
#[global] Instance AuthStrategy_eq_dec : EqDecision AuthStrategy.
Proof. solve_decision. Defined.
#[global] Instance Feature_eq_dec : EqDecision Feature.
Proof. solve_decision. Defined.

(** The string each literal type value is at run time. *)
Definition Framework_str (f : Framework) : string :=
  match f with express => "express" end.
Definition Database_str (d : Database) : string :=
  match d with mongodb => "mongodb" | database_none => "none" end.

Record ProjectOptions := {
  name : string;
  language : Language;
  framework : Framework;
  database : Database;
  orm : ORM;
  features : list Feature;
  validationLibrary : option ValidationLibrary;
  authStrategy : option AuthStrategy;
}.

(** [features.includes(f)]. *)
Definition includes (l : list Feature) (f : Feature) : bool :=
  bool_decide (f ∈ l).

(** [options.authStrategy === s]. *)
Definition authStrategy_is (options : ProjectOptions) (s : AuthStrategy) : bool :=
  bool_decide (authStrategy options = Some s).

(** [options.validationLibrary === v]. *)
Definition validationLibrary_is (options : ProjectOptions) (v : ValidationLibrary) : bool :=
  bool_decide (validationLibrary options = Some v).

(** ** The consistency predicate *)

Fixpoint no_path_separator (s : string) : bool :=
  match s with
  | EmptyString => true
  | String c rest =>
      negb (Ascii.eqb c "/"%char) && negb (Ascii.eqb c "\"%char) &&
      no_path_separator rest
  end.

Definition valid_name (s : string) : bool :=
  negb (String.eqb s "") && no_path_separator s.

Definition compatible (d : Database) (r : ORM) : bool :=
  match d, r with
  | mongodb, mongoose => true
  | database_none, orm_none => true
  | _, _ => false
  end.

(** Modelled from the spec: the source has no validation of a configuration
    (section 4.1 asks for a predicate [isConsistent]; none is in
    [src/]).  The invariants of section 3: [validationLibrary] is defined
    iff [validation] is a feature, [authStrategy] is defined iff [auth] is
    a feature, the ORM is compatible with the database ([mongodb] pairs
    with [mongoose], [none] with [none]), and the name is non-empty and has
    no path separator. *)
Definition isConsistent (config : ProjectOptions) : bool :=
  bool_decide (is_Some (validationLibrary config) ↔ validation ∈ features config) &&
  bool_decide (is_Some (authStrategy config) ↔ auth ∈ features config) &&
  compatible (database config) (orm config) &&
  valid_name (name config).

(** ** Type guards of the generator *)

Definition isDatabaseMongoDB (database : Database) : bool :=
  bool_decide (database = mongodb).
Definition isORMMongoose (orm : ORM) : bool :=
  bool_decide (orm = mongoose).
Definition isFrameworkExpress (framework : Framework) : bool :=
  bool_decide (framework = express).
Definition isDatabaseNone (database : Database) : bool :=
  bool_decide (database = database_none).
Definition isORMNone (orm : ORM) : bool :=
  bool_decide (orm = orm_none).

(** ** Dependency resolver *)

(** The object literal [dependencies] of [getDependencies] starts from:
    the base set. *)
Definition baseDependencies : gmap string string :=
  {[ "@types/node" := "latest"; "dotenv" := "latest" ]}.

(** [getDependencies]: every statement [dependencies[k] = v] of the source
    is one [let] here, in the order of the source. *)
Definition getDependencies (options : ProjectOptions) : gmap string string :=
  let dependencies : gmap string string := baseDependencies in
  (* Framework dependencies *)
  let dependencies :=
    match framework options with
    | express =>
        let dependencies := <["express" := "latest"]> dependencies in
        let dependencies := <["cors" := "latest"]> dependencies in
        let dependencies := <["helmet" := "latest"]> dependencies in
        let dependencies := <["morgan" := "latest"]> dependencies in
        dependencies
    end in
  (* Database dependencies *)
  let dependencies :=
    if isDatabaseMongoDB (database options)
    then <["mongodb" := "latest"]> dependencies
    else dependencies in
  (* ORM dependencies *)
  let dependencies :=
    if isORMMongoose (orm options)
    then <["mongoose" := "latest"]> dependencies
    else dependencies in
  (* Authentication dependencies *)
  let dependencies :=
    if includes (features options) auth then
      let dependencies := <["passport" := "latest"]> dependencies in
      let dependencies := <["express-session" := "latest"]> dependencies in
      let dependencies :=
        if authStrategy_is options jwt then
          let dependencies := <["passport-jwt" := "latest"]> dependencies in
          let dependencies := <["jsonwebtoken" := "latest"]> dependencies in
          dependencies
        else if authStrategy_is options session then
          let dependencies := <["connect-mongo" := "latest"]> dependencies in
          let dependencies := <["express-session" := "latest"]> dependencies in
          let dependencies := <["passport-local" := "latest"]> dependencies in
          dependencies
        else if authStrategy_is options oauth then
          let dependencies := <["passport-google-oauth20" := "latest"]> dependencies in
          let dependencies := <["passport-github2" := "latest"]> dependencies in
          dependencies
        else dependencies in
      let dependencies := <["bcrypt" := "latest"]> dependencies in
      dependencies
    else dependencies in
  (* Validation dependencies *)
  let dependencies :=
    if includes (features options) validation then
      if validationLibrary_is options joi then
        <["joi" := "latest"]> dependencies
      else if validationLibrary_is options zod then
        <["zod" := "latest"]> dependencies
      else dependencies
    else dependencies in
  (* Swagger dependencies *)
  let dependencies :=
    if includes (features options) swagger then
      let dependencies := <["swagger-ui-express" := "latest"]> dependencies in
      let dependencies := <["swagger-jsdoc" := "latest"]> dependencies in
      dependencies
    else dependencies in
  dependencies.

(** [getDevDependencies]. *)
Definition getDevDependencies (options : ProjectOptions) : gmap string string :=
  let devDependencies : gmap string string := ∅ in
  (* TypeScript *)
  let devDependencies :=
    if bool_decide (language options = typescript) then
      let devDependencies := <["typescript" := "^5.2.2"]> devDependencies in
      let devDependencies := <["@types/node" := "^20.6.3"]> devDependencies in
      let devDependencies := <["ts-node" := "^10.9.1"]> devDependencies in
      let devDependencies := <["nodemon" := "^3.0.1"]> devDependencies in
      let devDependencies := <["tsconfig-paths" := "^4.2.0"]> devDependencies in
      let devDependencies := <["rimraf" := "^5.0.1"]> devDependencies in
      devDependencies
    else
      (* JavaScript with ES modules support *)
      <["nodemon" := "^3.0.1"]> devDependencies in
  (* Linting and formatting *)
  let devDependencies :=
    if bool_decide (language options = typescript) then
      let devDependencies := <["eslint" := "^8.49.0"]> devDependencies in
      let devDependencies :=
        <["@typescript-eslint/eslint-plugin" := "^6.7.2"]> devDependencies in
      let devDependencies :=
        <["@typescript-eslint/parser" := "^6.7.2"]> devDependencies in
      let devDependencies := <["prettier" := "^3.0.3"]> devDependencies in
      devDependencies
    else
      let devDependencies := <["eslint" := "^8.49.0"]> devDependencies in
      let devDependencies := <["prettier" := "^3.0.3"]> devDependencies in
      devDependencies in
  (* ORM dev dependencies: nothing for mongoose, the only ORM with a branch *)
  let devDependencies :=
    if bool_decide (orm options = mongoose) then devDependencies
    else devDependencies in
  (* Testing *)
  let devDependencies :=
    if includes (features options) tests then
      let devDependencies := <["jest" := "^29.7.0"]> devDependencies in
      let devDependencies :=
        if bool_decide (language options = typescript) then
          let devDependencies := <["ts-jest" := "^29.1.1"]> devDependencies in
          let devDependencies := <["@types/jest" := "^29.5.5"]> devDependencies in
          devDependencies
        else devDependencies in
      if isFrameworkExpress (framework options) then
        let devDependencies := <["supertest" := "^6.3.3"]> devDependencies in
        if bool_decide (language options = typescript) then
          <["@types/supertest" := "^2.0.12"]> devDependencies
        else devDependencies
      else devDependencies
    else devDependencies in
  devDependencies.

(** ** Paths (Node's [path] module, on relative POSIX paths)

    A path is a string of segments separated by [/].  [path_join] joins its
    arguments and normalizes the result as [path.join] does for the paths
    of this program: empty and [.] segments disappear, and the empty path
    is [.].  ([..] segments and absolute paths do not occur.) *)

Fixpoint split_char (sep : ascii) (s cur : string) : list string :=
  match s with
  | EmptyString => [cur]
  | String c rest =>
      if Ascii.eqb c sep then cur :: split_char sep rest ""
      else split_char sep rest (cur +:+ String c EmptyString)
  end.

Definition segments (p : string) : list string :=
  filter (λ s, s ≠ "" ∧ s ≠ ".") (split_char "/" p "").

Definition of_segments (segs : list string) : string :=
  match segs with
  | [] => "."
  | _ => String.concat "/" segs
  end.

Definition path_join (parts : list string) : string :=
  of_segments (concat (map segments parts)).

Definition dirname (p : string) : string :=
  of_segments (removelast (segments p)).

(** The directory itself and every directory above it, root first. *)
Definition ancestors (p : string) : list string :=
  let segs := segments p in
  map (λ k, of_segments (take k segs)) (seq 0 (S (length segs))).

(** ** File contents *)

Record Scripts := {
  script_start : string;
  script_dev : string;
  script_build : string;
  script_test : string;
}.

Record PackageJson := {
  pkg_name : string;
  pkg_version : string;
  pkg_description : string;
  pkg_type : string;
  pkg_main : string;
  pkg_scripts : Scripts;
  pkg_dependencies : gmap string string;
  pkg_devDependencies : gmap string string;
}.

Record CompilerOptions := {
  co_target : string;
  co_module : string;
  co_moduleResolution : string;
  co_esModuleInterop : bool;
  co_strict : bool;
  co_outDir : string;
  co_rootDir : string;
  co_resolveJsonModule : bool;
  co_skipLibCheck : bool;
  co_forceConsistentCasingInFileNames : bool;
}.

Record Tsconfig := {
  ts_compilerOptions : CompilerOptions;
  ts_include : list string;
  ts_exclude : list string;
}.

(** The two object literals the generator hands to [fs.writeJSON]. *)
Inductive JsonValue :=
  | PackageJsonValue (p : PackageJson)
  | TsconfigValue (t : Tsconfig).

(** What a file holds: the text given to [fs.writeFile], or the object
    given to [fs.writeJSON] (its serialization is the library's). *)
Inductive FileContent :=
  | Text (s : string)
  | Json (v : JsonValue).

(** ** The file system and the [Promise] monad

    The directory tree under the target directory: the directories in the
    order they were created, and the files in the order they were first
    written, each with its current content. *)

Record FileSystem := {
  fs_dirs : list string;
  fs_files : list (string * FileContent);
}.

Definition emptyFS : FileSystem := {| fs_dirs := []; fs_files := [] |}.

(** The content of the file at a path, if there is one. *)
Fixpoint file_at (files : list (string * FileContent)) (file : string)
    : option FileContent :=
  match files with
  | [] => None
  | (f, data) :: rest =>
      if String.eqb f file then Some data else file_at rest file
  end.

(** Creates the file, or replaces its content where it stands. *)
Fixpoint store (file : string) (data : FileContent)
    (files : list (string * FileContent)) : list (string * FileContent) :=
  match files with
  | [] => [(file, data)]
  | (f, old) :: rest =>
      if String.eqb f file then (f, data) :: rest
      else (f, old) :: store file data rest
  end.

Definition mkdir (ds : list string) (dir : string) : list string :=
  if bool_decide (dir ∈ ds) then ds else ds ++ [dir].

(** How an awaited call ends: with a value, or by throwing. *)
Inductive completion (A : Type) : Type :=
  | Normal (a : A)
  | Throw (e : string).
Arguments Normal {A} a.
Arguments Throw {A} e.

Definition Promise (A : Type) : Type :=
  FileSystem → completion (A * FileSystem).

#[global] Instance Promise_ret : MRet Promise :=
  λ A a fs, Normal (a, fs).

#[global] Instance Promise_bind : MBind Promise :=
  λ A B f m fs,
    match m fs with
    | Normal (a, fs') => f a fs'
    | Throw e => Throw e
    end.

(** [fs.ensureDir(dir)]: creates the directory and the missing ones above
    it; rejects when one of them exists as a file. *)
Definition ensureDir (dir : string) : Promise unit :=
  λ fs,
    if bool_decide (Exists (λ a, is_Some (file_at (fs_files fs) a)) (ancestors dir))
    then Throw ("EEXIST: file already exists, mkdir '" +:+ dir +:+ "'")
    else Normal (tt, {| fs_dirs := foldl mkdir (fs_dirs fs) (ancestors dir);
                        fs_files := fs_files fs |}).

(** [fs.writeFile(file, data)]: creates or overwrites the file; rejects
    when the path is a directory or its parent directory is missing. *)
Definition writeContent (file : string) (data : FileContent) : Promise unit :=
  λ fs,
    if bool_decide (file ∈ fs_dirs fs)
    then Throw ("EISDIR: illegal operation on a directory, open '" +:+ file +:+ "'")
    else if bool_decide (dirname file ∈ fs_dirs fs)
    then Normal (tt, {| fs_dirs := fs_dirs fs;
                        fs_files := store file data (fs_files fs) |})
    else Throw ("ENOENT: no such file or directory, open '" +:+ file +:+ "'").

Definition writeFile (file : string) (data : string) : Promise unit :=
  writeContent file (Text data).

(** [fs.writeJSON(file, object, { spaces: 2 })]. *)
Definition writeJSON (file : string) (object : JsonValue) : Promise unit :=
  writeContent file (Json object).

(** [Promise.all] over calls none of which returns a value.  The calls of
    the generator are [ensureDir]s, whose effects commute; they run here
    in the order of the array. *)
Definition Promise_all (ps : list (Promise unit)) : Promise unit :=
  foldr (λ p k, p ;; k) (mret tt) ps.

(** ** Generation *)

(** The directory named after the ORM: the template literal
    [`src/${options.orm === "mongoose" ? "schemas" : "models"}`] of
    [generateProjectStructure]. *)
Definition ormDirectory (orm : ORM) : string :=
  "src/" +:+ (if bool_decide (orm = mongoose) then "schemas" else "models").

(** [generateProjectStructure]. *)
Definition generateProjectStructure
    (projectDir : string) (options : ProjectOptions) : Promise unit :=
  let dirs := [
    "src";
    "src/controllers";
    "src/routes";
    "src/middleware";
    "src/utils";
    "src/config"
  ] in
  (* Add database-specific directories *)
  let dirs :=
    if bool_decide (database options ≠ database_none) then
      let dirs := dirs ++ ["src/models"] in
      if bool_decide (orm options ≠ orm_none) then
        dirs ++ [ormDirectory (orm options)]
      else dirs
    else dirs in
  (* Add feature-specific directories *)
  let dirs :=
    if includes (features options) auth then dirs ++ ["src/auth"] else dirs in
  let dirs :=
    if includes (features options) tests then
      let dirs := dirs ++ ["tests"] in
      let dirs := dirs ++ ["tests/unit"] in
      let dirs := dirs ++ ["tests/integration"] in
      dirs
    else dirs in
  (* Create directories *)
  Promise_all (map (λ dir, ensureDir (path_join [projectDir; dir])) dirs).

(** The object literal [packageJson] of [generatePackageJson]. *)
Definition packageJson (options : ProjectOptions) : PackageJson :=
  let isTypeScript := bool_decide (language options = typescript) in
  let mainFile := if isTypeScript then "dist/index.js" else "src/index.js" in
  let srcExt := if isTypeScript then "ts" else "js" in
  {| pkg_name := name options;
     pkg_version := "1.0.0";
     pkg_description := "A Node.js REST API";
     pkg_type := "module";
     pkg_main := mainFile;
     pkg_scripts :=
       {| script_start := "node " +:+ mainFile;
          script_dev :=
            if isTypeScript
            then "ts-node-dev --respawn --transpile-only src/index." +:+ srcExt
            else "nodemon src/index." +:+ srcExt;
          script_build :=
            if isTypeScript
            then "tsc"
            else "echo " +:+ dquote +:+ "No build step needed for JavaScript" +:+ dquote;
          script_test :=
            if includes (features options) tests
            then "jest"
            else "echo " +:+ dquote +:+ "No tests configured" +:+ dquote |};
     pkg_dependencies := getDependencies options;
     pkg_devDependencies := getDevDependencies options |}.

(** [generatePackageJson]. *)
Definition generatePackageJson
    (projectDir : string) (options : ProjectOptions) : Promise unit :=
  writeJSON (path_join [projectDir; "package.json"])
            (PackageJsonValue (packageJson options)).

(** The array [envContent] of [generateEnvFile], one line per element. *)
Definition envContent (options : ProjectOptions) : list string :=
  let envContent := [
    "# Server Configuration";
    "PORT=3000";
    "NODE_ENV=development";
    ""
  ] in
  (* Database connection *)
  let envContent :=
    if bool_decide (database options ≠ database_none) then
      let envContent := envContent ++ ["# Database Configuration"] in
      let envContent :=
        match database options with
        | mongodb =>
            envContent ++ ["MONGODB_URI=mongodb://localhost:27017/" +:+ name options]
        | _ => envContent
        end in
      envContent ++ [""]
    else envContent in
  (* Authentication *)
  let envContent :=
    if includes (features options) auth then
      let envContent := envContent ++ ["# Authentication"] in
      let envContent := envContent ++ ["JWT_SECRET=your-secret-key"] in
      let envContent := envContent ++ ["JWT_EXPIRES_IN=1d"] in
      let envContent :=
        if authStrategy_is options session || authStrategy_is options oauth
        then envContent ++ ["SESSION_SECRET=your-session-secret"]
        else envContent in
      let envContent :=
        if authStrategy_is options oauth then
          let envContent := envContent ++ ["# OAuth Configuration"] in
          let envContent := envContent ++ ["GOOGLE_CLIENT_ID=your-google-client-id"] in
          let envContent :=
            envContent ++ ["GOOGLE_CLIENT_SECRET=your-google-client-secret"] in
          let envContent := envContent ++ ["GITHUB_CLIENT_ID=your-github-client-id"] in
          let envContent :=
            envContent ++ ["GITHUB_CLIENT_SECRET=your-github-client-secret"] in
          envContent
        else envContent in
      envContent ++ [""]
    else envContent in
  envContent.

(** [generateEnvFile]: [.env.example], [.env] and [.gitignore]. *)
Definition generateEnvFile
    (projectDir : string) (options : ProjectOptions) : Promise unit :=
  let envContent := envContent options in
  writeFile (path_join [projectDir; ".env.example"])
            (String.concat newline envContent) ;;
  writeFile (path_join [projectDir; ".env"])
            (String.concat newline envContent) ;;
  (* Add .env to .gitignore *)
  writeFile (path_join [projectDir; ".gitignore"])
            ("node_modules" +:+ newline +:+ "dist" +:+ newline +:+ ".env" +:+ newline).

(** The object literal [tsconfig] of [copyTemplateFiles]. *)
Definition tsconfig : Tsconfig :=
  {| ts_compilerOptions :=
       {| co_target := "ES2020";
          co_module := "NodeNext";
          co_moduleResolution := "NodeNext";
          co_esModuleInterop := true;
          co_strict := true;
          co_outDir := "./dist";
          co_rootDir := "./src";
          co_resolveJsonModule := true;
          co_skipLibCheck := true;
          co_forceConsistentCasingInFileNames := true |};
     ts_include := ["src/**/*"];
     ts_exclude := ["node_modules"; "**/*.test.ts"; "dist"] |}.

(** The template literal [readmeContent] of [copyTemplateFiles]. *)
Definition readmeContent (options : ProjectOptions) : string :=
  "# " +:+ name options +:+ "

A Node.js REST API project built with " +:+ Framework_str (framework options) +:+
  (if bool_decide (database options ≠ database_none)
   then " and " +:+ Database_str (database options)
   else "") +:+ ".

## Getting Started

### Prerequisites

- Node.js (v16 or higher)
- npm or yarn
" +:+
  (if bool_decide (database options ≠ database_none)
   then "- " +:+ Database_str (database options) +:+ " database"
   else "") +:+ "

### Installation

1. Clone the repository
2. Install dependencies

```bash
npm install
```

3. Set up environment variables
   - Copy `.env.example` to `.env` and update the values

4. Start the development server

```bash
npm run dev
```

## Scripts

- `npm run dev`: Start development server
- `npm run build`: Build for production
- `npm start`: Start production server
" +:+
  (if includes (features options) tests then "- `npm test`: Run tests" else "") +:+ "

## Project Structure

```
src/
├── controllers/    # Request handlers
├── routes/         # API routes
├── middleware/     # Express/Fastify/Koa middleware
├── models/         # Data models
├── config/         # Configuration files
└── utils/          # Utility functions
```
".

(** The template literal [indexContent] of [generateIndexFile], cut at its
    database-connection block: the text before the block, *)
Definition indexImports (options : ProjectOptions) : string :=
  "import express from 'express';
import cors from 'cors';
import helmet from 'helmet';
import morgan from 'morgan';
import 'dotenv/config';
" +:+
  (if bool_decide (database options = mongodb)
   then "import mongoose from 'mongoose';" else "") +:+ "
" +:+
  (if includes (features options) auth
   then "import passport from 'passport';" else "") +:+ "
" +:+
  (if includes (features options) auth && authStrategy_is options session
   then "import session from 'express-session';"
   else "") +:+ "
" +:+
  (if includes (features options) auth &&
      authStrategy_is options session &&
      bool_decide (database options = mongodb)
   then "import MongoStore from 'connect-mongo';"
   else "") +:+ "

const app = express();
const port = process.env.PORT || 3000;

// Connect to MongoDB
".

(** the block, *)
Definition indexConnect (options : ProjectOptions) : string :=
  if bool_decide (database options = mongodb)
  then "
mongoose.connect(process.env.MONGODB_URI || 'mongodb://localhost:27017/" +:+ name options +:+ "')
  .then(() => console.log('Connected to MongoDB'))
  .catch(err => console.error('MongoDB connection error:', err));
"
  else "".

(** and the text after it. *)
Definition indexBody (options : ProjectOptions) : string :=
  let isTypeScript := bool_decide (language options = typescript) in
  let fileExtension := if isTypeScript then ".ts" else ".js" in
  let typeDefs := if isTypeScript then ": any" else "" in
  "

// Middleware
app.use(cors());
app.use(helmet());
app.use(morgan('dev'));
app.use(express.json());

" +:+
  (if includes (features options) auth && authStrategy_is options session
   then "
// Session configuration
app.use(session({
  secret: process.env.SESSION_SECRET || 'your-secret-key',
  resave: false,
  saveUninitialized: false,
  " +:+
     (if bool_decide (database options = mongodb)
      then "
  store: MongoStore.create({
    mongoUrl: process.env.MONGODB_URI || 'mongodb://localhost:27017/" +:+ name options +:+ "'
  }),"
      else "") +:+ "
  cookie: {
    maxAge: 1000 * 60 * 60 * 24 // 1 day
  }
}));

// Initialize Passport
app.use(passport.initialize());
app.use(passport.session());
"
   else if includes (features options) auth
   then "
// Initialize Passport
app.use(passport.initialize());
"
   else "") +:+ "

" +:+
  (if includes (features options) swagger
   then "
// Swagger documentation
import swaggerJSDoc from 'swagger-jsdoc';
import swaggerUi from 'swagger-ui-express';

const swaggerOptions = {
  definition: {
    openapi: '3.0.0',
    info: {
      title: '" +:+ name options +:+ " API',
      version: '1.0.0',
      description: 'API documentation for " +:+ name options +:+ "',
    },
    servers: [
      {
        url: 'http://localhost:' + port,
        description: 'Development server',
      },
    ],
  },
  apis: ['./src/routes/*." +:+ fileExtension +:+ "'],
};

const swaggerSpec = swaggerJSDoc(swaggerOptions);
app.use('/api-docs', swaggerUi.serve, swaggerUi.setup(swaggerSpec));
"
   else "") +:+ "

// Routes
app.get('/', (req, res" +:+ typeDefs +:+ ") => {
  res.json({ message: 'Welcome to " +:+ name options +:+ " API' });
});

// Start server
app.listen(port, () => {
  console.log(`Server running on port ${port}`);
});
".

Definition indexContent (options : ProjectOptions) : string :=
  indexImports options +:+ indexConnect options +:+ indexBody options.

(** [generateIndexFile]. *)
Definition generateIndexFile
    (projectDir : string) (options : ProjectOptions) : Promise unit :=
  let isTypeScript := bool_decide (language options = typescript) in
  let fileExtension := if isTypeScript then ".ts" else ".js" in
  writeFile (path_join [projectDir; "src"; "index" +:+ fileExtension])
            (indexContent options).

(** The three texts of [generateBasicFiles]. *)
Definition controllerContent : string :=
  "/**
 * Example controller
 */
export const getHello = async (req, res) => {
  return res.json({ message: 'Hello World!' });
};

export const createItem = async (req, res) => {
  const item = req.body;
  // Implementation would depend on the database and ORM
  return res.status(201).json({ message: 'Item created', item });
};
".

Definition routeContent (options : ProjectOptions) : string :=
  let routeContent := "" in
  if isFrameworkExpress (framework options) then
    "import { Router } from 'express';
import { getHello, createItem } from '../controllers/example.controller.js';

const router = Router();

router.get('/hello', getHello);
router.post('/items', createItem);

export default router;
"
  else routeContent.

Definition modelContent (options : ProjectOptions) : string :=
  let modelContent := "" in
  if isORMMongoose (orm options) then
    "import mongoose from 'mongoose';

const exampleSchema = new mongoose.Schema({
  name: {
    type: String,
    required: true
  },
  description: {
    type: String
  },
  createdAt: {
    type: Date,
    default: Date.now
  }
});

export const Example = mongoose.model('Example', exampleSchema);
"
  else
    "// Example model file
// Implementation depends on your ORM and database choice

export interface Example {
  id?: number;
  name: string;
  description?: string;
  createdAt?: Date;
}

// Example repository functions
export const findAll = async () => {
  // Implementation depends on your database and ORM choice
  return [];
};

export const findById = async (id: number) => {
  // Implementation depends on your database and ORM choice
  return null;
};

export const create = async (data: Omit<Example, 'id' | 'createdAt'>) => {
  // Implementation depends on your database and ORM choice
  return { ...data, id: 1, createdAt: new Date() };
};
".

(** [generateBasicFiles]: the controller, the route and, when a database
    is selected, the model. *)
Definition generateBasicFiles
    (projectDir : string) (options : ProjectOptions) : Promise unit :=
  (* Create a basic controller *)
  writeFile (path_join [projectDir; "src"; "controllers"; "example.controller.ts"])
            controllerContent ;;
  (* Create a basic route file *)
  writeFile (path_join [projectDir; "src"; "routes"; "example.routes.ts"])
            (routeContent options) ;;
  (* Create a basic model if a database is selected *)
  if negb (isDatabaseNone (database options)) then
    writeFile (path_join [projectDir; "src"; "models"; "example.model.ts"])
              (modelContent options)
  else mret tt.

(** [copyTemplateFiles]. *)
Definition copyTemplateFiles
    (projectDir : string) (options : ProjectOptions) : Promise unit :=
  let tsconfigPath := path_join [projectDir; "tsconfig.json"] in
  writeJSON tsconfigPath (TsconfigValue tsconfig) ;;
  (* Create a basic README.md *)
  writeFile (path_join [projectDir; "README.md"]) (readmeContent options) ;;
  (* Create basic index.js file based on the selected framework *)
  generateIndexFile projectDir options ;;
  (* Generate basic controller, route, and model files *)
  generateBasicFiles projectDir options.

(** [generateProject]. *)
Definition generateProject
    (projectDir : string) (options : ProjectOptions) : Promise unit :=
  (* Create project directory if it doesn't exist *)
  ensureDir projectDir ;;
  (* Generate project structure based on selected options *)
  generateProjectStructure projectDir options ;;
  (* Generate package.json *)
  generatePackageJson projectDir options ;;
  (* Generate environment variables file *)
  generateEnvFile projectDir options ;;
  (* Copy template files based on framework, database, etc. *)
  copyTemplateFiles projectDir options.

(** [generateDatabaseUrl]. *)
Definition generateDatabaseUrl (options : ProjectOptions) : string :=
  if isDatabaseNone (database options) then ""
  else if isDatabaseMongoDB (database options)
  then "mongodb://localhost:27017/" +:+ name options
  else "".


(** ** What a run leaves behind

    The directories and files of a run in an empty target directory, as
    [generateProject_run] below proves them to be. *)

Definition createdDirs (options : ProjectOptions) : list string :=
  ["."; "src"; "src/controllers"; "src/routes"; "src/middleware";
   "src/utils"; "src/config"] ++
  match database options with
  | database_none => []
  | mongodb =>
      "src/models" ::
      match orm options with
      | mongoose => ["src/schemas"]
      | orm_none => []
      end
  end ++
  (if includes (features options) auth then ["src/auth"] else []) ++
  (if includes (features options) tests
   then ["tests"; "tests/unit"; "tests/integration"] else []).

Definition indexPath (options : ProjectOptions) : string :=
  match language options with
  | typescript => "src/index.ts"
  | javascript => "src/index.js"
  end.

Definition generatedFiles (options : ProjectOptions)
    : list (string * FileContent) :=
  [ ("package.json", Json (PackageJsonValue (packageJson options)));
    (".env.example", Text (String.concat newline (envContent options)));
    (".env", Text (String.concat newline (envContent options)));
    (".gitignore",
      Text ("node_modules" +:+ newline +:+ "dist" +:+ newline +:+ ".env" +:+ newline));
    ("tsconfig.json", Json (TsconfigValue tsconfig));
    ("README.md", Text (readmeContent options));
    (indexPath options, Text (indexContent options));
    ("src/controllers/example.controller.ts", Text controllerContent);
    ("src/routes/example.routes.ts", Text (routeContent options)) ] ++
  match database options with
  | database_none => []
  | mongodb => [("src/models/example.model.ts", Text (modelContent options))]
  end.

(** The paths of the files, in the order of the files. *)
Definition paths (files : list (string * FileContent)) : list string :=
  files.*1.

(** ** Vocabulary of the properties *)


(** What every step of [getDependencies] keeps true of the manifest under
    construction: the base set is there, and [ts-node-dev] is not. *)
Definition runtime_invariant (m : gmap string string) : Prop :=
  m !! "@types/node" = Some "latest" ∧
  m !! "dotenv" = Some "latest" ∧
  m !! "ts-node-dev" = None.

(** The text of [line] before its first [=], when it has one. *)
Fixpoint before_equals (line : string) : option string :=
  match line with
  | EmptyString => None
  | String c rest =>
      if Ascii.eqb c "="%char then Some EmptyString
      else String c <$> before_equals rest
  end.

(** The text of [line] after its first [=], when it has one. *)
Fixpoint after_equals (line : string) : option string :=
  match line with
  | EmptyString => None
  | String c rest =>
      if Ascii.eqb c "="%char then Some rest else after_equals rest
  end.

(** The lines of a text: [text.split("\n")]. *)
Definition lines (text : string) : list string :=
  split_char "010" text "".

Fixpoint has_no (sep : ascii) (s : string) : bool :=
  match s with
  | EmptyString => true
  | String c rest => negb (Ascii.eqb c sep) && has_no sep rest
  end.

(** The variable a line of an environment file defines: none for an empty
    line, a comment or a line with no [=]. *)
Definition variable_of (line : string) : option string :=
  if startsWith "#" line then None else before_equals line.

Definition definedVariables (lines : list string) : list string :=
  omap variable_of lines.

(** The value the lines give to a variable: that of the first line that
    defines it. *)
Fixpoint variable_value (var : string) (lines : list string) : option string :=
  match lines with
  | [] => None
  | line :: rest =>
      if bool_decide (variable_of line = Some var) then after_equals line
      else variable_value var rest
  end.

(** Two configurations that differ at most in the order and the repetition
    of their features. *)
Definition same_configuration (o o' : ProjectOptions) : Prop :=
  name o = name o' ∧
  language o = language o' ∧
  framework o = framework o' ∧
  database o = database o' ∧
  orm o = orm o' ∧
  (∀ f, f ∈ features o ↔ f ∈ features o') ∧
  validationLibrary o = validationLibrary o' ∧
  authStrategy o = authStrategy o'.

(** ** More vocabulary *)

(** Writing a sequence of files with distinct paths. *)
Definition store_all (written files : list (string * FileContent))
    : list (string * FileContent) :=
  foldl (λ fl '(p, c), store p c fl) files written.

(** A file can be written: its path is not a directory and its parent
    directory exists. *)
Definition writable (ds : list string) (file : string) : Prop :=
  (file ∉ ds) ∧ dirname file ∈ ds.

(** Every package [getDependencies] can list. *)
Definition runtimePackages : list string :=
  ["@types/node"; "dotenv"; "express"; "cors"; "helmet"; "morgan";
   "mongodb"; "mongoose"; "passport"; "express-session"; "passport-jwt";
   "jsonwebtoken"; "connect-mongo"; "passport-local";
   "passport-google-oauth20"; "passport-github2"; "bcrypt"; "joi"; "zod";
   "swagger-ui-express"; "swagger-jsdoc"].

(** The packages of the branch of [getDependencies] for a strategy. *)
Definition strategyPackages (s : AuthStrategy) : list string :=
  match s with
  | jwt => ["passport-jwt"; "jsonwebtoken"]
  | session => ["connect-mongo"; "passport-local"]
  | oauth => ["passport-google-oauth20"; "passport-github2"]
  end.

(** Two configurations that differ at most in the feature [docker] and in
    the order and the repetition of their features. *)
Definition same_but_docker (o o' : ProjectOptions) : Prop :=
  name o = name o' ∧
  language o = language o' ∧
  framework o = framework o' ∧
  database o = database o' ∧
  orm o = orm o' ∧
  (∀ f, f ≠ docker → (f ∈ features o ↔ f ∈ features o')) ∧
  validationLibrary o = validationLibrary o' ∧
  authStrategy o = authStrategy o'.

(** ** src/commands/create.ts

    The prompts are those of [@inquirer/prompts].  What the user answers
    is a parameter: for a [select] the index of the choice taken, for the
    [checkbox] the indices of the choices ticked, for the [confirm] a
    boolean.  A [select] answered with no choice of its list is a prompt
    that the user closed: the call rejects with an [ExitPromptError], of
    which only the name is kept.  The [confirm] is taken as answered. *)

Record Choice (T : Type) := { choice_name : string; choice_value : T }.
Arguments choice_name {T} _.
Arguments choice_value {T} _.

Record Answers := {
  answer_continue : bool;
  answer_language : nat;
  answer_framework : nat;
  answer_database : nat;
  answer_orm : nat;
  answer_features : list nat;
  answer_validationLibrary : nat;
  answer_authStrategy : nat;
}.

Definition ExitPromptError : string := "ExitPromptError".

Definition select {T : Type} (choices : list (Choice T)) (answer : nat)
    : Promise T :=
  λ fs,
    match choices !! answer with
    | Some choice => Normal (choice_value choice, fs)
    | None => Throw ExitPromptError
    end.

(** The values of the ticked choices, in the order of the choices. *)
Definition checkbox {T : Type} (choices : list (Choice T)) (answer : list nat)
    : Promise (list T) :=
  λ fs,
    Normal (omap id (imap (λ i choice,
                             if bool_decide (i ∈ answer)
                             then Some (choice_value choice) else None)
                          choices), fs).

(** [fs.existsSync(path)]. *)
Definition existsSync (path : string) (fs : FileSystem) : bool :=
  bool_decide (path ∈ fs_dirs fs) || bool_decide (path ∈ paths (fs_files fs)).

(** The prompts of [createProject], down to the object [projectOptions]. *)
Definition collectOptions (projectName : string) (answers : Answers)
    : Promise ProjectOptions :=
  (* Select language *)
  language ← select [
    {| choice_name := "TypeScript"; choice_value := typescript |};
    {| choice_name := "JavaScript"; choice_value := javascript |}
  ] (answer_language answers);
  (* Framework selection - currently limited to Express *)
  framework ← select [
    {| choice_name := "Express"; choice_value := express |}
  ] (answer_framework answers);
  (* Database selection - currently limited to MongoDB *)
  database ← select [
    {| choice_name := "MongoDB"; choice_value := mongodb |}
  ] (answer_database answers);
  (* ORM selection - currently limited to Mongoose for MongoDB *)
  let ormChoices := [
    {| choice_name := "Mongoose"; choice_value := mongoose |}
  ] in
  orm ← select ormChoices (answer_orm answers);
  (* Select additional features *)
  features ← checkbox [
    {| choice_name := "Authentication (Passport)"; choice_value := auth |};
    {| choice_name := "Validation"; choice_value := validation |};
    {| choice_name := "Swagger/OpenAPI Documentation"; choice_value := swagger |};
    {| choice_name := "Docker"; choice_value := docker |};
    {| choice_name := "Testing (Jest)"; choice_value := tests |}
  ] (answer_features answers);
  (* Additional configuration based on selected features *)
  validationLibrary ←
    (if includes features validation then
       v ← select [
         {| choice_name := "Joi"; choice_value := joi |};
         {| choice_name := "Zod"; choice_value := zod |}
       ] (answer_validationLibrary answers);
       mret (Some v)
     else mret None);
  authStrategy ←
    (if includes features auth then
       s ← select [
         {| choice_name := "JWT"; choice_value := jwt |};
         {| choice_name := "Session-based"; choice_value := session |};
         {| choice_name := "OAuth (Google, GitHub, etc.)"; choice_value := oauth |}
       ] (answer_authStrategy answers);
       mret (Some s)
     else mret None);
  (* Collect project options *)
  mret {| name := projectName;
          language := language;
          framework := framework;
          database := database;
          orm := orm;
          features := features;
          validationLibrary := validationLibrary;
          authStrategy := authStrategy |}.

(** How [createProject] ends: it returns after the generation, or leaves
    through [process.exit(0)] when the user declines to continue in an
    existing directory, or through [process.exit(1)] from its [catch]. *)
Inductive Outcome :=
  | Created (fs : FileSystem)
  | Cancelled (fs : FileSystem)
  | Failed (error : string).

(** [createProject].  The tree is that under [projectDir], the directory
    [path.resolve(process.cwd(), projectName)]: it exists when the tree
    has its root. *)
Definition createProject (projectName : string) (answers : Answers)
    (fs : FileSystem) : Outcome :=
  let projectDir := "." in
  (* Check if directory already exists *)
  if existsSync projectDir fs && negb (answer_continue answers)
  then Cancelled fs
  else
    match (projectOptions ← collectOptions projectName answers;
           (* Generate project with collected options *)
           generateProject projectDir projectOptions) fs with
    | Normal (_, fs') => Created fs'
    | Throw error => Failed error
    end.

(** Every prompt that is shown is answered with one of its choices. *)
Definition answered (answers : Answers) : Prop :=
  answer_language answers < 2 ∧
  answer_framework answers < 1 ∧
  answer_database answers < 1 ∧
  answer_orm answers < 1 ∧
  (1 ∈ answer_features answers → answer_validationLibrary answers < 2) ∧
  (0 ∈ answer_features answers → answer_authStrategy answers < 3).

(** ** Sample configurations *)

(** Scenario 1 of the specification. *)
Definition demo : ProjectOptions :=
  {| name := "demo"; language := typescript; framework := express;
     database := mongodb; orm := mongoose; features := [];
     validationLibrary := None; authStrategy := None |}.

(** TypeScript, MongoDB, every feature, OAuth. *)
Definition demoFull : ProjectOptions :=
  {| name := "demo"; language := typescript; framework := express;
     database := mongodb; orm := mongoose;
     features := [auth; validation; swagger; docker; tests];
     validationLibrary := Some zod; authStrategy := Some oauth |}.

(** Scenario 2: no database, no feature. *)
Definition demoNoDatabase : ProjectOptions :=
  {| name := "demo"; language := typescript; framework := express;
     database := database_none; orm := orm_none; features := [];
     validationLibrary := None; authStrategy := None |}.

(** A JavaScript project. *)
Definition demoJavaScript : ProjectOptions :=
  {| name := "demo"; language := javascript; framework := express;
     database := mongodb; orm := mongoose; features := [tests];
     validationLibrary := None; authStrategy := None |}.

(** Session authentication with no database. *)
Definition demoSessionNoDatabase : ProjectOptions :=
  {| name := "demo"; language := typescript; framework := express;
     database := database_none; orm := orm_none; features := [auth];
     validationLibrary := None; authStrategy := Some session |}.

(** Two configurations outside the consistency predicate: an ORM with no
    database, and authentication with no strategy. *)
Definition mongooseWithoutDatabase : ProjectOptions :=
  {| name := "demo"; language := typescript; framework := express;
     database := database_none; orm := mongoose; features := [];
     validationLibrary := None; authStrategy := None |}.

Definition authWithoutStrategy : ProjectOptions :=
  {| name := "demo"; language := typescript; framework := express;
     database := mongodb; orm := mongoose; features := [auth];
     validationLibrary := None; authStrategy := None |}.

(** ** Proof tools *)

(** Case analysis on the tests of a definition laid open. *)
Ltac split_tests :=
  repeat match goal with
  | |- context [if ?b then _ else _] => destruct b
  | |- context [match ?x with express => _ end] => destruct x
  end.

(** Replaces a closed subterm by its value. *)
Ltac evaluate t :=
  let v := eval vm_compute in t in change t with v.

(** Decides the tests that are closed. *)
Ltac decide_tests :=
  repeat match goal with
  | |- context [if ?b then _ else _] =>
      let v := eval vm_compute in b in
      match v with
      | true => change b with true
      | false => change b with false
      end; cbv iota
  end.

(** One step through [getDependencies] for [runtime_invariant]: the object
    literal (by [base]), an assignment (by [insert]), a [let] (by [rule])
    or a branch. *)
Ltac invariant_step rule base insert :=
  first
    [ assumption
    | apply base
    | apply insert; [discriminate|]
    | lazymatch goal with
      | |- runtime_invariant (let d := ?e in @?body d) =>
          refine (rule _ _ runtime_invariant runtime_invariant e body _ _);
          [|intros ? ?; cbv beta]
      end
    | match goal with
      | |- runtime_invariant (if ?b then _ else _) => destruct b
      | |- runtime_invariant (match ?x with express => _ end) => destruct x
      end ].

(** Proves a decidable proposition by evaluating its decision. *)
Ltac by_evaluation := apply (bool_decide_unpack _); vm_compute; exact I.

(** Turns the tests of a goal into boolean variables. *)
Ltac abstract_tests :=
  repeat match goal with
  | |- context [if ?b then _ else _] =>
      tryif is_var b then fail
      else (let x := fresh "b" in generalize b; intros x)
  | |- context [match ?f with express => _ end] => destruct f
  end.

(** Decides a goal for all values of its tests at once. *)
Ltac by_cases_on_tests :=
  abstract_tests;
  repeat match goal with b : bool |- _ => revert b end;
  by_evaluation.

(** Membership in the literal part of a list. *)
Ltac in_list :=
  apply elem_of_app; left;
  repeat first [apply list_elem_of_here | apply list_elem_of_further].

(** * Properties *)

(** ** Strings *)

Lemma string_app_assoc (a b c : string) : (a +:+ b) +:+ c = a +:+ (b +:+ c).
Proof.
  induction a as [|x a IH]; [reflexivity|].
  change (String x ((a +:+ b) +:+ c) = String x (a +:+ (b +:+ c))).
  by rewrite IH.
Qed.

(** ** Lines *)


Lemma has_no_app (sep : ascii) (a b : string) :
  has_no sep (a +:+ b) = has_no sep a && has_no sep b.
Proof.
  induction a as [|c a IH]; [reflexivity|].
  change (negb (Ascii.eqb c sep) && has_no sep (a +:+ b)
          = negb (Ascii.eqb c sep) && has_no sep a && has_no sep b).
  rewrite IH. by destruct (Ascii.eqb c sep).
Qed.




(** ** Tests and the consistency predicate *)

Lemma includes_true (l : list Feature) (f : Feature) :
  includes l f = true ↔ f ∈ l.
Proof. unfold includes. apply bool_decide_eq_true. Qed.

Lemma includes_false (l : list Feature) (f : Feature) :
  includes l f = false ↔ f ∉ l.
Proof. unfold includes. apply bool_decide_eq_false. Qed.

Lemma includes_ext (l l' : list Feature) (f : Feature) :
  (∀ g, g ∈ l ↔ g ∈ l') → includes l f = includes l' f.
Proof. intros H. unfold includes. apply bool_decide_ext, H. Qed.




(** ** The dependency resolver *)

(** A property of a [let] follows from one of the bound value that the
    body preserves. *)
Lemma let_rule {A B : Type} (P : A → Prop) (Q : B → Prop)
    (e : A) (body : A → B) :
  P e → (∀ d, P d → Q (body d)) → Q (let d := e in body d).
Proof. intros He Hb. exact (Hb e He). Qed.

Lemma runtime_invariant_base : runtime_invariant baseDependencies.
Proof. repeat split; by vm_compute. Qed.

Lemma runtime_invariant_insert (k : string) (m : gmap string string) :
  k ≠ "ts-node-dev" →
  runtime_invariant m → runtime_invariant (<[k := "latest"]> m).
Proof.
  intros Hk (Ht & Hd & Hn). repeat split.
  - destruct (decide (k = "@types/node")) as [->|Hne];
      [by rewrite lookup_insert_eq | by rewrite lookup_insert_ne].
  - destruct (decide (k = "dotenv")) as [->|Hne];
      [by rewrite lookup_insert_eq | by rewrite lookup_insert_ne].
  - by rewrite lookup_insert_ne.
Qed.

(** The base set is in every runtime manifest, whatever the configuration,
    and no runtime manifest lists [ts-node-dev]: the invariant holds of
    the object literal, and every assignment and every branch of
    [getDependencies] keeps it. *)
Lemma getDependencies_base (o : ProjectOptions) :
  getDependencies o !! "@types/node" = Some "latest" ∧
  getDependencies o !! "dotenv" = Some "latest" ∧
  getDependencies o !! "ts-node-dev" = None.
Proof.
  change (runtime_invariant (getDependencies o)).
  cbv delta [getDependencies]; cbv beta.
  repeat invariant_step (@let_rule) runtime_invariant_base runtime_invariant_insert.
Qed.

Lemma getDependencies_nonempty (o : ProjectOptions) : getDependencies o ≠ ∅.
Proof.
  intros H. pose proof (getDependencies_base o) as (_ & Hd & _).
  rewrite H, lookup_empty in Hd. discriminate.
Qed.

Lemma getDevDependencies_base (o : ProjectOptions) :
  getDevDependencies o !! "nodemon" = Some "^3.0.1" ∧
  getDevDependencies o !! "ts-node-dev" = None.
Proof.
  cbv delta [getDevDependencies]; cbv beta.
  split_tests; vm_compute; auto.
Qed.

Lemma getDevDependencies_typescript (o : ProjectOptions) :
  language o = typescript →
  getDevDependencies o !! "ts-node" = Some "^10.9.1" ∧
  getDevDependencies o !! "typescript" = Some "^5.2.2".
Proof.
  intros Hl. cbv delta [getDevDependencies]; cbv beta. rewrite Hl.
  decide_tests. split_tests; vm_compute; auto.
Qed.


(** The manifests depend on the features as a set. *)
Lemma getDependencies_ext (o o' : ProjectOptions) :
  same_configuration o o' → getDependencies o' = getDependencies o.
Proof.
  intros (_ & _ & Hf & Hd & Hr & Hfs & Hv & Ha).
  cbv delta [getDependencies authStrategy_is validationLibrary_is]; cbv beta.
  rewrite Hf, Hd, Hr, Hv, Ha.
  rewrite !(includes_ext (features o) (features o')) by done.
  reflexivity.
Qed.

Lemma getDevDependencies_ext (o o' : ProjectOptions) :
  same_configuration o o' → getDevDependencies o' = getDevDependencies o.
Proof.
  intros (_ & Hl & Hf & _ & Hr & Hfs & _).
  cbv delta [getDevDependencies]; cbv beta.
  rewrite Hl, Hf, Hr.
  rewrite !(includes_ext (features o) (features o')) by done.
  reflexivity.
Qed.

Lemma same_configuration_refl (o : ProjectOptions) : same_configuration o o.
Proof. by repeat split. Qed.

(** C1.  For every configuration that satisfies the consistency predicate
    the resolver returns its two manifests, the runtime manifest is not
    empty, and it is a function of the configuration: a second call with
    the same configuration (even with the features in another order or
    repeated) returns equal manifests. *)
Theorem resolver_total_nonempty_deterministic (o : ProjectOptions) :
  isConsistent o = true →
  (∃ runtime development,
     getDependencies o = runtime ∧ getDevDependencies o = development ∧
     runtime ≠ ∅) ∧
  (∀ o', same_configuration o o' →
     getDependencies o' = getDependencies o ∧
     getDevDependencies o' = getDevDependencies o).
Proof.
  intros _. split.
  - exists (getDependencies o), (getDevDependencies o).
    split; [reflexivity|]. split; [reflexivity|]. apply getDependencies_nonempty.
  - intros o' H. split; [by apply getDependencies_ext | by apply getDevDependencies_ext].
Qed.

Lemma resolver_total_nonempty_deterministic_witness :
  isConsistent demoFull = true ∧
  getDependencies demoFull ≠ ∅ ∧
  getDependencies demoFull = getDependencies demoFull.
Proof.
  split; [reflexivity|].
  destruct (resolver_total_nonempty_deterministic demoFull eq_refl)
    as [(r & d & <- & _ & Hne) Hdet].
  split; [exact Hne|].
  exact (proj1 (Hdet demoFull (same_configuration_refl demoFull))).
Defined.

(** ** A run in an empty target directory *)

(** Every configuration, consistent or not, runs to completion; the
    directories and the files are those of [createdDirs] and
    [generatedFiles], in that order. *)
Lemma generateProject_run (o : ProjectOptions) :
  generateProject "." o emptyFS =
  Normal (tt, {| fs_dirs := createdDirs o; fs_files := generatedFiles o |}).
Proof.
  cbv delta [generateProject copyTemplateFiles generateBasicFiles
    generateIndexFile generateEnvFile generatePackageJson
    generateProjectStructure generatedFiles createdDirs indexPath
    writeFile writeJSON]; cbv beta zeta.
  generalize (packageJson o) (String.concat newline (envContent o))
    (readmeContent o) (indexContent o) (routeContent o) (modelContent o)
    controllerContent.
  intros pj env readme index route model controller.
  destruct (includes (features o) auth), (includes (features o) tests),
    (language o), (database o), (orm o); vm_compute; reflexivity.
Qed.

(** The paths of the files a run writes. *)
Lemma generatedFiles_paths (o : ProjectOptions) :
  paths (generatedFiles o) =
  [ "package.json"; ".env.example"; ".env"; ".gitignore"; "tsconfig.json";
    "README.md"; indexPath o; "src/controllers/example.controller.ts";
    "src/routes/example.routes.ts" ] ++
  match database o with
  | database_none => []
  | mongodb => ["src/models/example.model.ts"]
  end.
Proof. unfold paths, generatedFiles. by destruct (database o). Qed.

(** No path is written twice. *)
Lemma generatedFiles_NoDup (o : ProjectOptions) : NoDup (paths (generatedFiles o)).
Proof.
  rewrite generatedFiles_paths. unfold indexPath.
  destruct (language o), (database o);
    apply (bool_decide_unpack _); vm_compute; exact I.
Qed.

Lemma file_at_generatedFiles (o : ProjectOptions) :
  file_at (generatedFiles o) "package.json"
    = Some (Json (PackageJsonValue (packageJson o))) ∧
  file_at (generatedFiles o) ".env"
    = Some (Text (String.concat newline (envContent o))) ∧
  file_at (generatedFiles o) ".env.example"
    = Some (Text (String.concat newline (envContent o))) ∧
  file_at (generatedFiles o) "tsconfig.json"
    = Some (Json (TsconfigValue tsconfig)) ∧
  file_at (generatedFiles o) "README.md" = Some (Text (readmeContent o)) ∧
  file_at (generatedFiles o) (indexPath o) = Some (Text (indexContent o)) ∧
  file_at (generatedFiles o) "src/controllers/example.controller.ts"
    = Some (Text controllerContent) ∧
  file_at (generatedFiles o) "src/routes/example.routes.ts"
    = Some (Text (routeContent o)).
Proof.
  unfold generatedFiles, indexPath.
  destruct (language o); repeat split; reflexivity.
Qed.

Lemma file_at_model (o : ProjectOptions) :
  file_at (generatedFiles o) "src/models/example.model.ts" =
  match database o with
  | database_none => None
  | mongodb => Some (Text (modelContent o))
  end.
Proof.
  unfold generatedFiles, indexPath.
  destruct (language o), (database o); reflexivity.
Qed.

(** A file that is there has its path among the paths. *)
Lemma file_at_paths (files : list (string * FileContent)) (file : string) :
  is_Some (file_at files file) ↔ file ∈ paths files.
Proof.
  unfold paths. induction files as [|[f data] rest IH]; simpl.
  - split; [intros [? [=]] | by intros ?%elem_of_nil].
  - rewrite elem_of_cons. destruct (String.eqb_spec f file) as [->|Hne].
    + split; [by left | by eexists].
    + rewrite IH. split; [by right | intros [E|H]; [congruence | exact H]].
Qed.

(** C2, as the code has it.  No configuration makes the resolver or the
    synthesizer raise an error, whether it satisfies the consistency
    predicate or not: in an empty target directory generation runs to
    completion, the resolver returns a non-empty runtime manifest, and
    [package.json] is written with the resolver's two manifests. *)
Theorem generation_never_rejects (o : ProjectOptions) :
  ∃ fs',
    generateProject "." o emptyFS = Normal (tt, fs') ∧
    getDependencies o ≠ ∅ ∧
    file_at (fs_files fs') "package.json"
      = Some (Json (PackageJsonValue (packageJson o))) ∧
    pkg_dependencies (packageJson o) = getDependencies o ∧
    pkg_devDependencies (packageJson o) = getDevDependencies o ∧
    file_at (fs_files fs') "README.md" = Some (Text (readmeContent o)) ∧
    file_at (fs_files fs') (indexPath o) = Some (Text (indexContent o)).
Proof.
  eexists. split; [apply generateProject_run|]. cbn [fs_files].
  pose proof (file_at_generatedFiles o) as (? & _ & _ & _ & ? & ? & _).
  split; [apply getDependencies_nonempty|]. by repeat split.
Qed.

(** C2, as the specification states it, fails: an ORM with no database and
    authentication with no strategy both violate the predicate, and for
    both the run completes and returns output; the first manifest even
    lists [mongoose]. *)
Lemma invalid_configuration_accepted :
  isConsistent mongooseWithoutDatabase = false ∧
  isConsistent authWithoutStrategy = false ∧
  (¬ ∃ e, generateProject "." mongooseWithoutDatabase emptyFS = Throw e) ∧
  (¬ ∃ e, generateProject "." authWithoutStrategy emptyFS = Throw e) ∧
  getDependencies mongooseWithoutDatabase !! "mongoose" = Some "latest" ∧
  ¬ (∀ o, isConsistent o = false →
          ∃ e, generateProject "." o emptyFS = Throw e).
Proof.
  split; [reflexivity|]. split; [reflexivity|].
  assert (H : ∀ o, ¬ ∃ e, generateProject "." o emptyFS = Throw e).
  { intros o [e He]. rewrite generateProject_run in He. discriminate. }
  split; [apply H|]. split; [apply H|].
  split; [by vm_compute|].
  intros Hall. apply (H mongooseWithoutDatabase), Hall. reflexivity.
Qed.

(** C4, as the code has it.  For every consistent configuration the run
    writes [tsconfig.json], with the same content whatever the language. *)
Theorem tsconfig_always_written (o : ProjectOptions) :
  isConsistent o = true →
  ∃ fs',
    generateProject "." o emptyFS = Normal (tt, fs') ∧
    file_at (fs_files fs') "tsconfig.json" = Some (Json (TsconfigValue tsconfig)).
Proof.
  intros _. eexists. split; [apply generateProject_run|]. cbn [fs_files].
  apply file_at_generatedFiles.
Qed.

Lemma tsconfig_always_written_witness :
  ∃ fs',
    generateProject "." demoJavaScript emptyFS = Normal (tt, fs') ∧
    file_at (fs_files fs') "tsconfig.json" = Some (Json (TsconfigValue tsconfig)).
Proof. apply (tsconfig_always_written demoJavaScript). reflexivity. Defined.

(** C4, as the specification states it, fails: a consistent JavaScript
    project gets a [tsconfig.json]. *)
Lemma tsconfig_written_for_javascript :
  isConsistent demoJavaScript = true ∧
  language demoJavaScript = javascript ∧
  (∃ fs',
     generateProject "." demoJavaScript emptyFS = Normal (tt, fs') ∧
     "tsconfig.json" ∈ paths (fs_files fs')) ∧
  ¬ (∀ o fs', isConsistent o = true →
       generateProject "." o emptyFS = Normal (tt, fs') →
       ("tsconfig.json" ∈ paths (fs_files fs') ↔ language o = typescript)).
Proof.
  split; [reflexivity|]. split; [reflexivity|].
  assert (H : "tsconfig.json" ∈ paths (generatedFiles demoJavaScript)).
  { apply (bool_decide_unpack _). by vm_compute. }
  split.
  - eexists. split; [apply generateProject_run | exact H].
  - intros Hall.
    pose proof (Hall demoJavaScript _ eq_refl (generateProject_run _)) as Hiff.
    apply Hiff in H. discriminate H.
Qed.

(** C7.  For every consistent configuration with no database the run
    writes no file under [src/models/] (so no model stub), and creates
    neither [src/models] nor the directory of any ORM. *)
Theorem no_database_no_models (o : ProjectOptions) :
  isConsistent o = true →
  database o = database_none →
  ∃ fs',
    generateProject "." o emptyFS = Normal (tt, fs') ∧
    (∀ file, file ∈ paths (fs_files fs') → startsWith "src/models/" file = false) ∧
    file_at (fs_files fs') "src/models/example.model.ts" = None ∧
    ("src/models" ∉ fs_dirs fs') ∧
    (∀ r : ORM, ormDirectory r ∉ fs_dirs fs') ∧
    (∀ dir, dir ∈ fs_dirs fs' → startsWith "src/models" dir = false).
Proof.
  intros _ Hd. eexists. split; [apply generateProject_run|]. cbn [fs_files fs_dirs].
  split; [|split; [|split; [|split]]].
  - rewrite generatedFiles_paths, Hd. unfold indexPath.
    apply Forall_forall. destruct (language o); by_evaluation.
  - by rewrite file_at_model, Hd.
  - unfold createdDirs. rewrite Hd.
    destruct (includes (features o) auth), (includes (features o) tests);
      by_evaluation.
  - intros r. unfold createdDirs. rewrite Hd.
    destruct r, (includes (features o) auth), (includes (features o) tests);
      by_evaluation.
  - unfold createdDirs. rewrite Hd. apply Forall_forall.
    destruct (includes (features o) auth), (includes (features o) tests);
      by_evaluation.
Qed.

Lemma no_database_no_models_witness :
  ∃ fs',
    generateProject "." demoNoDatabase emptyFS = Normal (tt, fs') ∧
    (∀ file, file ∈ paths (fs_files fs') → startsWith "src/models/" file = false) ∧
    file_at (fs_files fs') "src/models/example.model.ts" = None ∧
    ("src/models" ∉ fs_dirs fs') ∧
    (∀ r : ORM, ormDirectory r ∉ fs_dirs fs') ∧
    (∀ dir, dir ∈ fs_dirs fs' → startsWith "src/models" dir = false).
Proof. apply (no_database_no_models demoNoDatabase); reflexivity. Defined.

(** With a database the directories and the stub are there. *)
Lemma database_has_models (o : ProjectOptions) :
  database o = mongodb →
  "src/models" ∈ createdDirs o ∧
  "src/models/example.model.ts" ∈ paths (generatedFiles o).
Proof.
  intros Hd. split.
  - unfold createdDirs. rewrite Hd. set_solver.
  - rewrite generatedFiles_paths, Hd. set_solver.
Qed.

(** C9.  For every consistent configuration the controller stub, the
    route stub and, with a database, the model stub are written under a
    [.ts] name, also for JavaScript; the entry point is [src/index.ts] for
    TypeScript and [src/index.js] for JavaScript, and it is the only file
    with a [.js] name. *)
Theorem stubs_have_ts_extension (o : ProjectOptions) :
  isConsistent o = true →
  ∃ fs',
    generateProject "." o emptyFS = Normal (tt, fs') ∧
    file_at (fs_files fs') "src/controllers/example.controller.ts"
      = Some (Text controllerContent) ∧
    file_at (fs_files fs') "src/routes/example.routes.ts"
      = Some (Text (routeContent o)) ∧
    (database o ≠ database_none →
     file_at (fs_files fs') "src/models/example.model.ts"
       = Some (Text (modelContent o))) ∧
    file_at (fs_files fs')
      (match language o with
       | typescript => "src/index.ts"
       | javascript => "src/index.js"
       end) = Some (Text (indexContent o)) ∧
    (∀ file, file ∈ paths (fs_files fs') → endsWith ".js" file = true →
       file = "src/index.js" ∧ language o = javascript) ∧
    (∀ file, file ∈ paths (fs_files fs') → endsWith ".ts" file = true →
       file = "src/controllers/example.controller.ts" ∨
       file = "src/routes/example.routes.ts" ∨
       file = "src/models/example.model.ts" ∨
       file = "src/index.ts" ∧ language o = typescript).
Proof.
  intros _. eexists. split; [apply generateProject_run|]. cbn [fs_files].
  pose proof (file_at_generatedFiles o) as (_ & _ & _ & _ & _ & Hi & Hc & Hr).
  split; [exact Hc|]. split; [exact Hr|]. split; [|split; [exact Hi|]].
  - intros Hd. rewrite file_at_model. by destruct (database o).
  - rewrite generatedFiles_paths. unfold indexPath. split.
    + intros file Hin Hjs.
      destruct (language o), (database o);
        set_unfold; destruct_or!; subst; try discriminate Hjs; done.
    + intros file Hin Hts.
      destruct (language o), (database o);
        set_unfold; destruct_or!; subst; try discriminate Hts; auto.
Qed.

Lemma stubs_have_ts_extension_witness :
  ∃ fs',
    generateProject "." demoJavaScript emptyFS = Normal (tt, fs') ∧
    file_at (fs_files fs') "src/controllers/example.controller.ts"
      = Some (Text controllerContent) ∧
    file_at (fs_files fs') "src/index.js"
      = Some (Text (indexContent demoJavaScript)).
Proof.
  destruct (stubs_have_ts_extension demoJavaScript eq_refl)
    as (fs' & Hrun & Hc & _ & _ & Hi & _).
  exists fs'. auto.
Defined.

(** ** The environment file *)




(** ** The entry point and the environment file agree on the database *)

(** C10.  For every consistent configuration with [mongodb], the value of
    [MONGODB_URI] in the environment file and the fallback of the
    [mongoose.connect] call of the entry point are the same string,
    [mongodb://localhost:27017/] followed by the project name. *)
Theorem mongodb_fallback_matches_env (o : ProjectOptions) :
  isConsistent o = true →
  database o = mongodb →
  let url := "mongodb://localhost:27017/" +:+ name o in
  variable_value "MONGODB_URI" (envContent o) = Some url ∧
  ("MONGODB_URI=" +:+ url) ∈ envContent o ∧
  (∃ before after,
     indexContent o =
     before +:+
     "mongoose.connect(process.env.MONGODB_URI || '" +:+ url +:+ "')" +:+
     after) ∧
  generateDatabaseUrl o = url ∧
  ∃ fs',
    generateProject "." o emptyFS = Normal (tt, fs') ∧
    file_at (fs_files fs') ".env"
      = Some (Text (String.concat newline (envContent o))) ∧
    file_at (fs_files fs') (indexPath o) = Some (Text (indexContent o)).
Proof.
  intros _ Hd url. subst url.
  split; [|split; [|split; [|split]]].
  - cbv delta [envContent]; cbv beta. rewrite Hd.
    decide_tests. split_tests; reflexivity.
  - cbv delta [envContent]; cbv beta. rewrite Hd.
    decide_tests. split_tests; by apply (list_elem_of_lookup_2 _ 5).
  - unfold indexContent, indexConnect. rewrite Hd.
    exists (indexImports o +:+ newline).
    exists ("
  .then(() => console.log('Connected to MongoDB'))
  .catch(err => console.error('MongoDB connection error:', err));
" +:+ indexBody o).
    change (bool_decide (mongodb = mongodb)) with true. cbv iota.
    rewrite !string_app_assoc. reflexivity.
  - unfold generateDatabaseUrl. by rewrite Hd.
  - eexists. split; [apply generateProject_run|]. cbn [fs_files].
    pose proof (file_at_generatedFiles o) as (_ & ? & _ & _ & _ & ? & _).
    by split.
Qed.

Lemma mongodb_fallback_matches_env_witness :
  variable_value "MONGODB_URI" (envContent demo)
    = Some "mongodb://localhost:27017/demo" ∧
  str_includes
    "mongoose.connect(process.env.MONGODB_URI || 'mongodb://localhost:27017/demo')"
    (indexContent demo) = true.
Proof.
  split.
  - exact (proj1 (mongodb_fallback_matches_env demo eq_refl eq_refl)).
  - reflexivity.
Defined.

(** ** Type definitions, the session store and the dev script *)




(** C6 fails on the code.  A consistent configuration with session
    authentication and no database: the runtime manifest lists
    [connect-mongo], the session store of MongoDB, although the entry
    point of the same configuration neither imports nor uses it. *)
Lemma connect_mongo_without_database :
  isConsistent demoSessionNoDatabase = true ∧
  database demoSessionNoDatabase = database_none ∧
  authStrategy demoSessionNoDatabase = Some session ∧
  getDependencies demoSessionNoDatabase !! "connect-mongo" = Some "latest" ∧
  getDependencies demoSessionNoDatabase !! "mongodb" = None ∧
  str_includes "import session from 'express-session';"
               (indexContent demoSessionNoDatabase) = true ∧
  str_includes "connect-mongo" (indexContent demoSessionNoDatabase) = false ∧
  str_includes "MongoStore" (indexContent demoSessionNoDatabase) = false.
Proof. repeat split; by vm_compute. Qed.

(** The manifest lists [connect-mongo] for every session configuration,
    with or without a database. *)
Lemma session_adds_connect_mongo (o : ProjectOptions) :
  auth ∈ features o → authStrategy o = Some session →
  getDependencies o !! "connect-mongo" = Some "latest".
Proof.
  intros Ha%includes_true Hs.
  cbv delta [getDependencies authStrategy_is]; cbv beta. rewrite Ha, Hs.
  decide_tests. split_tests; by vm_compute.
Qed.

(** The entry point imports it only with [mongodb]. *)
Lemma index_imports_connect_mongo (o : ProjectOptions) :
  database o = database_none →
  ∀ text, text ∈ [indexImports o; indexConnect o] →
    str_includes "connect-mongo" text = false.
Proof.
  intros Hd text. unfold indexImports, indexConnect. rewrite Hd.
  decide_tests. intros Hin.
  destruct (includes (features o) auth), (authStrategy_is o session);
    set_unfold; destruct_or!; subst; by vm_compute.
Qed.

(** C8.  For every consistent TypeScript configuration the [dev] script
    of the manifest runs [ts-node-dev], a package that neither manifest
    lists; the development manifest lists [ts-node] and [nodemon]. *)
Theorem dev_script_runs_unlisted_package (o : ProjectOptions) :
  isConsistent o = true →
  language o = typescript →
  script_dev (pkg_scripts (packageJson o))
    = "ts-node-dev --respawn --transpile-only src/index.ts" ∧
  startsWith "ts-node-dev " (script_dev (pkg_scripts (packageJson o))) = true ∧
  pkg_dependencies (packageJson o) !! "ts-node-dev" = None ∧
  pkg_devDependencies (packageJson o) !! "ts-node-dev" = None ∧
  pkg_devDependencies (packageJson o) !! "ts-node" = Some "^10.9.1" ∧
  pkg_devDependencies (packageJson o) !! "nodemon" = Some "^3.0.1" ∧
  ∃ fs',
    generateProject "." o emptyFS = Normal (tt, fs') ∧
    file_at (fs_files fs') "package.json"
      = Some (Json (PackageJsonValue (packageJson o))).
Proof.
  intros _ Hl.
  assert (Hdev : script_dev (pkg_scripts (packageJson o))
                 = "ts-node-dev --respawn --transpile-only src/index.ts").
  { unfold packageJson. cbn [pkg_scripts script_dev]. by rewrite Hl. }
  split; [exact Hdev|]. split; [by rewrite Hdev|].
  unfold packageJson at 1 2 3 4. cbn [pkg_dependencies pkg_devDependencies].
  pose proof (getDependencies_base o) as (_ & _ & Hr).
  pose proof (getDevDependencies_base o) as (Hn & Hd).
  pose proof (getDevDependencies_typescript o Hl) as (Ht & _).
  repeat (split; [assumption|]).
  eexists. split; [apply generateProject_run|]. cbn [fs_files].
  apply file_at_generatedFiles.
Qed.

Lemma dev_script_runs_unlisted_package_witness :
  script_dev (pkg_scripts (packageJson demo))
    = "ts-node-dev --respawn --transpile-only src/index.ts" ∧
  pkg_devDependencies (packageJson demo) !! "ts-node-dev" = None.
Proof.
  destruct (dev_script_runs_unlisted_package demo eq_refl eq_refl)
    as (H1 & _ & _ & H2 & _).
  by split.
Defined.

(** ** The scenarios of the specification *)

(** Scenario 1: TypeScript, MongoDB and mongoose, no feature. *)
Example scenario_mongodb :
  "src/models" ∈ createdDirs demo ∧
  "src/schemas" ∈ createdDirs demo ∧
  str_includes "mongoose.connect(" (indexContent demo) = true ∧
  getDependencies demo !! "mongodb" = Some "latest" ∧
  getDependencies demo !! "mongoose" = Some "latest".
Proof. split; [by_evaluation|]. split; [by_evaluation|]. repeat split; by vm_compute. Qed.

(** Scenario 2: no database. *)
Example scenario_no_database :
  ("src/models" ∉ createdDirs demoNoDatabase) ∧
  str_includes "mongoose" (indexContent demoNoDatabase) = false ∧
  "MONGODB_URI" ∉ definedVariables (envContent demoNoDatabase).
Proof. split; [by_evaluation|]. split; [by vm_compute|by_evaluation]. Qed.

(** Scenarios 3 and 4: validation with zod, authentication with OAuth. *)
Example scenario_zod_oauth :
  getDependencies demoFull !! "zod" = Some "latest" ∧
  getDependencies demoFull !! "joi" = None ∧
  getDependencies demoFull !! "passport-google-oauth20" = Some "latest" ∧
  getDependencies demoFull !! "passport-github2" = Some "latest" ∧
  definedVariables (envContent demoFull) =
    ["PORT"; "NODE_ENV"; "MONGODB_URI"; "JWT_SECRET"; "JWT_EXPIRES_IN";
     "SESSION_SECRET"; "GOOGLE_CLIENT_ID"; "GOOGLE_CLIENT_SECRET";
     "GITHUB_CLIENT_ID"; "GITHUB_CLIENT_SECRET"].
Proof. repeat split; by vm_compute. Qed.

(** Scenario 5: tests with JavaScript. *)
Example scenario_tests_javascript :
  script_test (pkg_scripts (packageJson demoJavaScript)) = "jest" ∧
  getDevDependencies demoJavaScript !! "jest" = Some "^29.7.0" ∧
  getDevDependencies demoJavaScript !! "ts-jest" = None ∧
  getDevDependencies demoJavaScript !! "@types/jest" = None.
Proof. repeat split; by vm_compute. Qed.

(** * The generator over an existing tree, the resolver's tables and the prompts *)

(** ** The file system *)

Lemma mkdir_elem (ds : list string) (dir x : string) :
  x ∈ mkdir ds dir ↔ x ∈ ds ∨ x = dir.
Proof.
  unfold mkdir. case_bool_decide as H.
  - split; [by left | intros [?| ->]; done].
  - rewrite elem_of_app, list_elem_of_singleton. done.
Qed.

Lemma foldl_mkdir_elem (l ds : list string) (x : string) :
  x ∈ foldl mkdir ds l ↔ x ∈ ds ∨ x ∈ l.
Proof.
  revert ds. induction l as [|d l IH]; intros ds; simpl.
  - rewrite elem_of_nil. tauto.
  - rewrite IH, mkdir_elem, elem_of_cons. tauto.
Qed.

Lemma foldl_mkdir_present (l ds : list string) :
  (∀ x, x ∈ l → x ∈ ds) → foldl mkdir ds l = ds.
Proof.
  induction l as [|d l IH]; intros H; [reflexivity|]. simpl.
  unfold mkdir at 2. rewrite bool_decide_eq_true_2 by (apply H; left).
  apply IH. intros x Hx. apply H. by right.
Qed.

(** Reading after writing: the file written has the content written, and
    every other path is as before. *)
Lemma file_at_store (files : list (string * FileContent))
    (file other : string) (data : FileContent) :
  file_at (store file data files) other =
  if String.eqb file other then Some data else file_at files other.
Proof.
  induction files as [|[f old] rest IH]; simpl.
  - destruct (String.eqb_spec file other); reflexivity.
  - destruct (String.eqb_spec f file) as [->|Hne]; simpl.
    + destruct (String.eqb_spec file other); reflexivity.
    + rewrite IH. destruct (String.eqb_spec f other) as [->|Hne'].
      * destruct (String.eqb_spec file other) as [->|?]; [done | reflexivity].
      * reflexivity.
Qed.

Lemma file_at_None (files : list (string * FileContent)) (file : string) :
  file_at files file = None ↔ file ∉ paths files.
Proof.
  rewrite <- file_at_paths. split.
  - intros -> [? [=]].
  - intros H. destruct (file_at files file); [|done]. destruct H. by eexists.
Qed.

Lemma file_at_store_all (written files : list (string * FileContent)) (p : string) :
  NoDup (paths written) →
  file_at (store_all written files) p =
  match file_at written p with
  | Some c => Some c
  | None => file_at files p
  end.
Proof.
  unfold store_all. revert files.
  induction written as [|[f c] rest IH]; intros files Hnd; [reflexivity|].
  apply NoDup_cons in Hnd as [Hf Hnd]. cbn in Hf. simpl.
  rewrite IH by done. rewrite file_at_store.
  destruct (String.eqb_spec f p) as [->|Hne]; [|reflexivity].
  apply file_at_None in Hf. by rewrite Hf.
Qed.

Lemma paths_store (files : list (string * FileContent))
    (file : string) (data : FileContent) (p : string) :
  p ∈ paths (store file data files) ↔ p = file ∨ p ∈ paths files.
Proof.
  rewrite <- !file_at_paths, file_at_store.
  destruct (String.eqb_spec file p) as [->|Hne].
  - split; [by left | by eexists].
  - split; [by right | intros [?|?]; [congruence | done]].
Qed.

(** Writing what is already there changes nothing. *)
Lemma store_same (files : list (string * FileContent))
    (file : string) (data : FileContent) :
  file_at files file = Some data → store file data files = files.
Proof.
  induction files as [|[f old] rest IH]; simpl; [done|].
  destruct (String.eqb_spec f file) as [->|Hne].
  - by intros [= ->].
  - intros H. by rewrite IH.
Qed.

Lemma store_all_same (written files : list (string * FileContent)) :
  (∀ p c, (p, c) ∈ written → file_at files p = Some c) →
  store_all written files = files.
Proof.
  unfold store_all. induction written as [|[p c] rest IH]; intros H; [reflexivity|].
  simpl. rewrite store_same by (apply H; left). apply IH.
  intros q d Hq. apply H. by right.
Qed.

Lemma file_at_elem (files : list (string * FileContent)) (p : string) (c : FileContent) :
  NoDup (paths files) → (p, c) ∈ files → file_at files p = Some c.
Proof.
  induction files as [|[f d] rest IH]; intros Hnd Hin; [by apply elem_of_nil in Hin|].
  apply NoDup_cons in Hnd as [Hf Hnd]. cbn in Hf. simpl.
  apply elem_of_cons in Hin as [[= -> ->]|Hin].
  - by rewrite String.eqb_refl.
  - destruct (String.eqb_spec f p) as [->|Hne]; [|by apply IH].
    destruct Hf. unfold paths in *. apply list_elem_of_fmap. by exists (p, c).
Qed.

Lemma store_all_idempotent (written files : list (string * FileContent)) :
  NoDup (paths written) →
  store_all written (store_all written files) = store_all written files.
Proof.
  intros Hnd. apply store_all_same. intros p c Hin.
  rewrite file_at_store_all by done. by rewrite (file_at_elem written p c).
Qed.

Lemma paths_store_all (written files : list (string * FileContent)) (p : string) :
  p ∈ paths (store_all written files) ↔ p ∈ paths written ∨ p ∈ paths files.
Proof.
  unfold store_all. revert files.
  induction written as [|[f c] rest IH]; intros files; simpl.
  - unfold paths at 2. simpl. rewrite elem_of_nil. tauto.
  - rewrite IH, paths_store. unfold paths at 3. simpl. rewrite elem_of_cons.
    fold (paths rest). tauto.
Qed.

(** ** Running the file operations *)

Lemma seq_run (m k : Promise unit) (fs fs1 : FileSystem)
    (r : completion (unit * FileSystem)) :
  m fs = Normal (tt, fs1) → k fs1 = r → (m ;; k) fs = r.
Proof. intros Hm Hk. unfold mbind, Promise_bind. by rewrite Hm. Qed.

Lemma seq_throw (m k : Promise unit) (fs : FileSystem) (e : string) :
  m fs = Throw e → (m ;; k) fs = Throw e.
Proof. intros Hm. unfold mbind, Promise_bind. by rewrite Hm. Qed.

(** What a sequence that completes went through. *)
Lemma seq_inv (m k : Promise unit) (fs fs2 : FileSystem) :
  (m ;; k) fs = Normal (tt, fs2) →
  ∃ fs1, m fs = Normal (tt, fs1) ∧ k fs1 = Normal (tt, fs2).
Proof.
  unfold mbind, Promise_bind. destruct (m fs) as [[[] fs1]|e]; [|done].
  intros H. by exists fs1.
Qed.

Lemma ensureDir_run (dir : string) (fs : FileSystem) :
  (∀ a, a ∈ ancestors dir → a ∉ paths (fs_files fs)) →
  ensureDir dir fs =
  Normal (tt, {| fs_dirs := foldl mkdir (fs_dirs fs) (ancestors dir);
                 fs_files := fs_files fs |}).
Proof.
  intros H. unfold ensureDir. rewrite bool_decide_eq_false_2; [reflexivity|].
  intros (a & Ha & Hfile)%Exists_exists. by apply (H a Ha), file_at_paths.
Qed.

Lemma ensureDir_inv (dir : string) (fs fs' : FileSystem) :
  ensureDir dir fs = Normal (tt, fs') →
  (∀ a, a ∈ ancestors dir → a ∉ paths (fs_files fs)) ∧
  fs' = {| fs_dirs := foldl mkdir (fs_dirs fs) (ancestors dir);
           fs_files := fs_files fs |}.
Proof.
  unfold ensureDir. case_bool_decide as H; [done|]. intros [= <-].
  split; [|reflexivity]. intros a Ha Hin. apply H, Exists_exists.
  exists a. split; [done|]. by apply file_at_paths.
Qed.

Lemma writeContent_run (file : string) (data : FileContent) (fs : FileSystem) :
  file ∉ fs_dirs fs → dirname file ∈ fs_dirs fs →
  writeContent file data fs =
  Normal (tt, {| fs_dirs := fs_dirs fs;
                 fs_files := store file data (fs_files fs) |}).
Proof.
  intros Hf Hd. unfold writeContent.
  by rewrite bool_decide_eq_false_2, bool_decide_eq_true_2.
Qed.

Lemma writeContent_inv (file : string) (data : FileContent) (fs fs' : FileSystem) :
  writeContent file data fs = Normal (tt, fs') →
  (file ∉ fs_dirs fs) ∧ dirname file ∈ fs_dirs fs ∧
  fs' = {| fs_dirs := fs_dirs fs;
           fs_files := store file data (fs_files fs) |}.
Proof.
  unfold writeContent. case_bool_decide as Hf; [done|].
  case_bool_decide as Hd; [|done]. by intros [= <-].
Qed.

(** [Promise.all] over [ensureDir]s. *)
Lemma Promise_all_ensureDir (l : list string) (fs : FileSystem) :
  (∀ a, a ∈ l ≫= ancestors → a ∉ paths (fs_files fs)) →
  ∃ ds,
    Promise_all (map ensureDir l) fs
      = Normal (tt, {| fs_dirs := ds; fs_files := fs_files fs |}) ∧
    (∀ x, x ∈ ds ↔ x ∈ fs_dirs fs ∨ x ∈ l ≫= ancestors) ∧
    ((∀ x, x ∈ l ≫= ancestors → x ∈ fs_dirs fs) → ds = fs_dirs fs).
Proof.
  revert fs. induction l as [|d l IH]; intros fs H.
  - exists (fs_dirs fs). split; [by destruct fs|]. split; [|done].
    intros x. simpl. rewrite elem_of_nil. tauto.
  - rewrite bind_cons in H.
    destruct (IH {| fs_dirs := foldl mkdir (fs_dirs fs) (ancestors d);
                    fs_files := fs_files fs |}) as (ds & Hrun & Hds & Hsame).
    { intros a Ha. apply H, elem_of_app. by right. }
    exists ds. split; [|split].
    + simpl. apply (seq_run _ _ _ _ _ (ensureDir_run d fs
        (λ a Ha, H a (proj2 (elem_of_app _ _ a) (or_introl Ha))))).
      exact Hrun.
    + intros x. rewrite Hds, bind_cons, elem_of_app. cbn [fs_dirs].
      rewrite foldl_mkdir_elem. tauto.
    + intros Hall. rewrite bind_cons in Hall. cbn [fs_dirs] in Hsame.
      rewrite foldl_mkdir_present in Hsame.
      * apply Hsame. intros x Hx. apply Hall, elem_of_app. by right.
      * intros x Hx. apply Hall, elem_of_app. by left.
Qed.

Lemma Promise_all_ensureDir_inv (l : list string) (fs fs' : FileSystem) :
  Promise_all (map ensureDir l) fs = Normal (tt, fs') →
  ∀ a, a ∈ l ≫= ancestors → a ∉ paths (fs_files fs).
Proof.
  revert fs. induction l as [|d l IH]; intros fs Hrun a Ha.
  - by apply elem_of_nil in Ha.
  - simpl in Hrun. apply seq_inv in Hrun as (fs1 & H1 & H2).
    apply ensureDir_inv in H1 as [Hd ->].
    rewrite bind_cons in Ha. apply elem_of_app in Ha as [Ha|Ha].
    + by apply Hd.
    + by apply (IH _ H2 a Ha).
Qed.

(** ** Generation over an existing tree *)

Ltac eval_paths :=
  repeat match goal with
  | |- context [path_join ?l] => evaluate (path_join l)
  | |- context [dirname ?p] => evaluate (dirname p)
  end.

(** One write of a sequence, or the last. *)
Ltac run_write :=
  first
    [ eapply seq_run; [apply writeContent_run; cbn [fs_dirs]; eval_paths|]
    | apply writeContent_run; cbn [fs_dirs]; eval_paths ].

Lemma generateProjectStructure_run (o : ProjectOptions) (fs : FileSystem) :
  (∀ d, d ∈ createdDirs o → d ∉ paths (fs_files fs)) →
  ∃ ds,
    generateProjectStructure "." o fs
      = Normal (tt, {| fs_dirs := ds; fs_files := fs_files fs |}) ∧
    (∀ x, x ∈ ds ↔ x ∈ fs_dirs fs ∨ x ∈ createdDirs o) ∧
    ((∀ x, x ∈ createdDirs o → x ∈ fs_dirs fs) → ds = fs_dirs fs).
Proof.
  cbv delta [generateProjectStructure createdDirs]; cbv beta zeta.
  destruct (database o), (orm o), (includes (features o) auth),
    (includes (features o) tests); decide_tests; intros H;
    match goal with
    | |- context [map ?f ?L] =>
        let L' := eval vm_compute in (map (λ dir, path_join ["."; dir]) L) in
        change (map f L) with (map ensureDir L');
        destruct (Promise_all_ensureDir L' fs) as (ds & Hrun & Hds & Hsame);
        [ intros a Ha; apply H; revert a Ha; apply Forall_forall; by_evaluation
        | exists ds; split; [exact Hrun|]; split;
          [ intros x; rewrite Hds;
            split; (intros [?|Hx]; [by left|right]; revert x Hx;
                    apply Forall_forall; by_evaluation)
          | intros Hall; apply Hsame; intros x Hx; apply Hall; revert x Hx;
            apply Forall_forall; by_evaluation ] ]
    end.
Qed.

Lemma generatePackageJson_run (o : ProjectOptions) (fs : FileSystem) :
  writable (fs_dirs fs) "package.json" →
  generatePackageJson "." o fs =
  Normal (tt, {| fs_dirs := fs_dirs fs;
                 fs_files := store_all
                   [("package.json", Json (PackageJsonValue (packageJson o)))]
                   (fs_files fs) |}).
Proof.
  intros [? ?]. unfold generatePackageJson, writeJSON. by run_write.
Qed.

Lemma generateEnvFile_run (o : ProjectOptions) (fs : FileSystem) :
  Forall (writable (fs_dirs fs)) [".env.example"; ".env"; ".gitignore"] →
  generateEnvFile "." o fs =
  Normal (tt, {| fs_dirs := fs_dirs fs;
                 fs_files := store_all
                   [(".env.example", Text (String.concat newline (envContent o)));
                    (".env", Text (String.concat newline (envContent o)));
                    (".gitignore",
                      Text ("node_modules" +:+ newline +:+ "dist" +:+ newline
                            +:+ ".env" +:+ newline))]
                   (fs_files fs) |}).
Proof.
  rewrite !Forall_cons. intros ([? ?] & [? ?] & [? ?] & _).
  unfold generateEnvFile, writeFile. cbv zeta.
  run_write; [done..|]. run_write; [done..|]. by run_write.
Qed.

Lemma generateIndexFile_run (o : ProjectOptions) (fs : FileSystem) :
  writable (fs_dirs fs) (indexPath o) →
  generateIndexFile "." o fs =
  Normal (tt, {| fs_dirs := fs_dirs fs;
                 fs_files := store_all [(indexPath o, Text (indexContent o))]
                                       (fs_files fs) |}).
Proof.
  unfold generateIndexFile, indexPath, writeFile. cbv zeta.
  destruct (language o); decide_tests; intros [? ?]; by run_write.
Qed.

Lemma generateBasicFiles_run (o : ProjectOptions) (fs : FileSystem) :
  Forall (writable (fs_dirs fs))
    (["src/controllers/example.controller.ts"; "src/routes/example.routes.ts"] ++
     match database o with
     | database_none => []
     | mongodb => ["src/models/example.model.ts"]
     end) →
  generateBasicFiles "." o fs =
  Normal (tt, {| fs_dirs := fs_dirs fs;
                 fs_files := store_all
                   ([("src/controllers/example.controller.ts", Text controllerContent);
                     ("src/routes/example.routes.ts", Text (routeContent o))] ++
                    match database o with
                    | database_none => []
                    | mongodb =>
                        [("src/models/example.model.ts", Text (modelContent o))]
                    end)
                   (fs_files fs) |}).
Proof.
  unfold generateBasicFiles, writeFile.
  destruct (database o); decide_tests; cbn [app]; rewrite !Forall_cons.
  - intros ([? ?] & [? ?] & [? ?] & _).
    run_write; [done..|]. run_write; [done..|]. by run_write.
  - intros ([? ?] & [? ?] & _).
    run_write; [done..|]. run_write; [done..|]. by destruct fs.
Qed.

Lemma store_all_app (l1 l2 files : list (string * FileContent)) :
  store_all (l1 ++ l2) files = store_all l2 (store_all l1 files).
Proof. unfold store_all. apply foldl_app. Qed.

Lemma copyTemplateFiles_run (o : ProjectOptions) (fs : FileSystem) :
  Forall (writable (fs_dirs fs))
    (["tsconfig.json"; "README.md"; indexPath o;
      "src/controllers/example.controller.ts"; "src/routes/example.routes.ts"] ++
     match database o with
     | database_none => []
     | mongodb => ["src/models/example.model.ts"]
     end) →
  copyTemplateFiles "." o fs =
  Normal (tt, {| fs_dirs := fs_dirs fs;
                 fs_files := store_all
                   ([("tsconfig.json", Json (TsconfigValue tsconfig));
                     ("README.md", Text (readmeContent o));
                     (indexPath o, Text (indexContent o));
                     ("src/controllers/example.controller.ts", Text controllerContent);
                     ("src/routes/example.routes.ts", Text (routeContent o))] ++
                    match database o with
                    | database_none => []
                    | mongodb =>
                        [("src/models/example.model.ts", Text (modelContent o))]
                    end)
                   (fs_files fs) |}).
Proof.
  cbn [app]. rewrite !Forall_cons. intros ([? ?] & [? ?] & Hi & Hb).
  unfold copyTemplateFiles, writeJSON, writeFile. cbv zeta.
  run_write; [done..|]. run_write; [done..|].
  eapply seq_run; [by apply generateIndexFile_run|].
  rewrite generateBasicFiles_run by (cbn [app fs_dirs]; by rewrite !Forall_cons).
  reflexivity.
Qed.

(** Every file is written into a directory that the structure step
    creates, and no file has the path of such a directory. *)
Lemma generated_files_in_created_dirs (o : ProjectOptions) :
  ∀ p, p ∈ paths (generatedFiles o) →
    dirname p ∈ createdDirs o ∧ p ∉ createdDirs o.
Proof.
  rewrite generatedFiles_paths. unfold indexPath, createdDirs.
  apply Forall_forall.
  destruct (language o), (database o), (orm o),
    (includes (features o) auth), (includes (features o) tests);
    by_evaluation.
Qed.

Lemma createdDirs_root (o : ProjectOptions) : "." ∈ createdDirs o.
Proof. unfold createdDirs. apply elem_of_app. left. by_evaluation. Qed.

(** Generation over any tree in which no path to write is a directory and
    no directory to create is a file: the run completes, the directories
    are the old ones and the created ones, and the files are the old ones
    with the generated ones written over them. *)
Lemma generateProject_over (o : ProjectOptions) (fs : FileSystem) :
  (∀ p, p ∈ paths (generatedFiles o) → p ∉ fs_dirs fs) →
  (∀ d, d ∈ createdDirs o → d ∉ paths (fs_files fs)) →
  ∃ ds,
    generateProject "." o fs
      = Normal (tt, {| fs_dirs := ds;
                       fs_files := store_all (generatedFiles o) (fs_files fs) |}) ∧
    (∀ x, x ∈ ds ↔ x ∈ fs_dirs fs ∨ x ∈ createdDirs o) ∧
    ((∀ x, x ∈ createdDirs o → x ∈ fs_dirs fs) → ds = fs_dirs fs).
Proof.
  intros Hfiles Hdirs.
  pose proof (createdDirs_root o) as Hroot.
  destruct (generateProjectStructure_run o
    {| fs_dirs := foldl mkdir (fs_dirs fs) (ancestors ".");
       fs_files := fs_files fs |} Hdirs) as (ds & Hrun & Hds & Hsame).
  cbn [fs_dirs fs_files] in *.
  assert (Hds' : ∀ x, x ∈ ds ↔ x ∈ fs_dirs fs ∨ x ∈ createdDirs o).
  { intros x. rewrite Hds, foldl_mkdir_elem.
    change (ancestors ".") with ["."]. rewrite list_elem_of_singleton.
    split; [intros [[?| ->]|?]; auto | intros [?|?]; auto]. }
  assert (Hw : ∀ p, p ∈ paths (generatedFiles o) → writable ds p).
  { intros p Hp. destruct (generated_files_in_created_dirs o p Hp) as [Hd Hn].
    split; rewrite Hds'; [|by right]. intros [?|?]; [by apply (Hfiles p)|done]. }
  rewrite generatedFiles_paths in Hw.
  exists ds. split; [|split; [exact Hds'|]].
  2: { intros Hall. rewrite foldl_mkdir_present in Hsame; [by apply Hsame|].
       change (ancestors ".") with ["."].
       intros x ->%list_elem_of_singleton. by apply Hall. }
  unfold generateProject.
  eapply seq_run.
  { apply ensureDir_run. change (ancestors ".") with ["."].
    intros a ->%list_elem_of_singleton. by apply Hdirs. }
  eapply seq_run; [exact Hrun|].
  eapply seq_run.
  { apply generatePackageJson_run. apply Hw. in_list. }
  eapply seq_run.
  { apply generateEnvFile_run. cbn [fs_dirs].
    repeat apply Forall_cons_2; try apply Forall_nil_2; apply Hw; in_list. }
  rewrite copyTemplateFiles_run.
  - reflexivity.
  - cbn [fs_dirs]. apply Forall_forall. intros p Hp. apply Hw.
    apply elem_of_app. apply elem_of_app in Hp as [Hp|Hp]; [left|by right].
    by do 4 apply list_elem_of_further.
Qed.

(** The files after the generated ones are written over a store. *)
Lemma file_at_store_all_generated (o : ProjectOptions)
    (files : list (string * FileContent)) :
  (∀ p, p ∈ paths (generatedFiles o) →
     file_at (store_all (generatedFiles o) files) p = file_at (generatedFiles o) p) ∧
  (∀ p, p ∉ paths (generatedFiles o) →
     file_at (store_all (generatedFiles o) files) p = file_at files p).
Proof.
  split; intros p Hp; rewrite file_at_store_all by apply generatedFiles_NoDup.
  - apply file_at_paths in Hp as [c ->]. reflexivity.
  - apply file_at_None in Hp. by rewrite Hp.
Qed.

(** X1.  Generation over an existing tree.  When no path to write is an
    existing directory and no directory to create is an existing file, the
    run completes; every generated file then has its generated content,
    whatever stood there before; every other file is untouched; and the
    directories are the old ones and the created ones. *)
Theorem generateProject_overwrites (o : ProjectOptions) (fs : FileSystem) :
  (∀ p, p ∈ paths (generatedFiles o) → p ∉ fs_dirs fs) →
  (∀ d, d ∈ createdDirs o → d ∉ paths (fs_files fs)) →
  ∃ fs',
    generateProject "." o fs = Normal (tt, fs') ∧
    (∀ p, p ∈ paths (generatedFiles o) →
       file_at (fs_files fs') p = file_at (generatedFiles o) p) ∧
    (∀ p, p ∉ paths (generatedFiles o) →
       file_at (fs_files fs') p = file_at (fs_files fs) p) ∧
    (∀ x, x ∈ fs_dirs fs' ↔ x ∈ fs_dirs fs ∨ x ∈ createdDirs o).
Proof.
  intros Hfiles Hdirs.
  destruct (generateProject_over o fs Hfiles Hdirs) as (ds & Hrun & Hds & _).
  eexists. split; [exact Hrun|]. cbn [fs_dirs fs_files].
  destruct (file_at_store_all_generated o (fs_files fs)) as [Hnew Hold].
  by split_and!.
Qed.

(** *** What a completed run went through *)

Lemma generateProjectStructure_inv (o : ProjectOptions) (fs fs' : FileSystem) :
  generateProjectStructure "." o fs = Normal (tt, fs') →
  ∀ d, d ∈ createdDirs o → d ∉ paths (fs_files fs).
Proof.
  cbv delta [generateProjectStructure createdDirs]; cbv beta zeta.
  destruct (database o), (orm o), (includes (features o) auth),
    (includes (features o) tests); decide_tests;
    match goal with
    | |- context [map ?f ?L] =>
        let L' := eval vm_compute in (map (λ dir, path_join ["."; dir]) L) in
        change (map f L) with (map ensureDir L')
    end;
    intros H d Hd; apply (Promise_all_ensureDir_inv _ _ _ H); revert d Hd;
    apply Forall_forall; by_evaluation.
Qed.

(** Takes a completed sequence of writes apart, write by write. *)
Ltac inv_run H :=
  lazymatch type of H with
  | writeContent _ _ _ = Normal _ =>
      let Hf := fresh "Hf" in
      let Hd := fresh "Hd" in
      apply writeContent_inv in H as (Hf & Hd & ->); cbn [fs_dirs] in *
  | mbind _ _ _ = Normal _ =>
      let fs1 := fresh "fs" in
      let H1 := fresh "H" in
      apply seq_inv in H as (fs1 & H1 & H); inv_run H1; inv_run H
  | _ => idtac
  end.

Ltac eval_paths_in H :=
  repeat match type of H with
  | context [path_join ?l] =>
      let v := eval vm_compute in (path_join l) in change (path_join l) with v in H
  | context [dirname ?p] =>
      let v := eval vm_compute in (dirname p) in change (dirname p) with v in H
  end.

Lemma generateProject_inv (o : ProjectOptions) (fs fs' : FileSystem) :
  generateProject "." o fs = Normal (tt, fs') →
  (∀ p, p ∈ paths (generatedFiles o) → p ∉ fs_dirs fs) ∧
  (∀ d, d ∈ createdDirs o → d ∉ paths (fs_files fs)).
Proof.
  unfold generateProject. intros H.
  apply seq_inv in H as (fs0 & [_ ->]%ensureDir_inv & H).
  apply seq_inv in H as (fs1 & Hs & H).
  pose proof (generateProjectStructure_inv _ _ _ Hs) as Hdirs.
  split; [|exact Hdirs].
  destruct (generateProjectStructure_run o _ Hdirs) as (ds & Hrun & Hds & _).
  rewrite Hrun in Hs. injection Hs as <-. cbn [fs_dirs fs_files] in *.
  assert (Hsub : ∀ p, p ∉ ds → p ∉ fs_dirs fs).
  { intros p Hp Hin. apply Hp, Hds. left. apply foldl_mkdir_elem. by left. }
  clear Hrun Hds Hdirs.
  rewrite generatedFiles_paths.
  unfold generatePackageJson, generateEnvFile, copyTemplateFiles,
    generateIndexFile, generateBasicFiles, writeJSON, writeFile, indexPath in *.
  cbv zeta in H.
  apply Forall_forall.
  destruct (language o), (database o);
    change (bool_decide (typescript = typescript)) with true in H;
    change (bool_decide (javascript = typescript)) with false in H;
    change (negb (isDatabaseNone mongodb)) with true in H;
    change (negb (isDatabaseNone database_none)) with false in H;
    cbv iota in H;
    inv_run H; cbn [app];
    repeat apply Forall_cons_2; try apply Forall_nil_2; apply Hsub;
    match goal with
    | Hf : ?q ∉ ds |- ?p ∉ ds => eval_paths_in Hf; exact Hf
    end.
Qed.

(** A run that rejects met a directory where it writes a file, or a file
    where it creates a directory. *)
Lemma generateProject_Throw (o : ProjectOptions) (fs : FileSystem) (e : string) :
  generateProject "." o fs = Throw e →
  (∃ p, p ∈ paths (generatedFiles o) ∧ p ∈ fs_dirs fs) ∨
  (∃ d, d ∈ createdDirs o ∧ d ∈ paths (fs_files fs)).
Proof.
  intros He.
  destruct (decide (Exists (λ p, p ∈ fs_dirs fs) (paths (generatedFiles o))))
    as [(p & ? & ?)%Exists_exists|Hp]; [left; by exists p|].
  destruct (decide (Exists (λ d, d ∈ paths (fs_files fs)) (createdDirs o)))
    as [(d & ? & ?)%Exists_exists|Hd]; [right; by exists d|].
  exfalso. destruct (generateProject_over o fs) as (ds & Hrun & _); [| |congruence].
  - intros p ? ?. apply Hp, Exists_exists. by exists p.
  - intros d ? ?. apply Hd, Exists_exists. by exists d.
Qed.

(** X2.  When generation completes and when it rejects.  A run over a tree
    completes exactly when no path it writes is an existing directory and
    no directory it creates is an existing file; otherwise it rejects. *)
Theorem generateProject_completes_iff (o : ProjectOptions) (fs : FileSystem) :
  ((∃ fs', generateProject "." o fs = Normal (tt, fs')) ↔
   (∀ p, p ∈ paths (generatedFiles o) → p ∉ fs_dirs fs) ∧
   (∀ d, d ∈ createdDirs o → d ∉ paths (fs_files fs))) ∧
  ((∃ e, generateProject "." o fs = Throw e) ↔
   (∃ p, p ∈ paths (generatedFiles o) ∧ p ∈ fs_dirs fs) ∨
   (∃ d, d ∈ createdDirs o ∧ d ∈ paths (fs_files fs))).
Proof.
  split; split.
  - intros [fs' H]. by apply generateProject_inv in H.
  - intros [H1 H2]. destruct (generateProject_over o fs H1 H2) as (ds & H & _).
    by eexists.
  - intros [e He]. by apply generateProject_Throw in He.
  - intros Hbad.
    destruct (generateProject "." o fs) as [[[] fs']|e] eqn:Hrun; [|by exists e].
    exfalso. destruct (generateProject_inv o fs fs' Hrun) as [H1 H2].
    destruct Hbad as [(p & ? & ?)|(d & ? & ?)]; [by apply (H1 p)|by apply (H2 d)].
Qed.

(** X3.  Running twice.  A second run with the same configuration over the
    tree a first run left, whatever the first run started from, changes
    nothing. *)
Theorem generateProject_idempotent (o : ProjectOptions) (fs fs' : FileSystem) :
  generateProject "." o fs = Normal (tt, fs') →
  generateProject "." o fs' = Normal (tt, fs').
Proof.
  intros Hrun.
  destruct (generateProject_inv o fs fs' Hrun) as [H1 H2].
  destruct (generateProject_over o fs H1 H2) as (ds & Hrun' & Hds & _).
  set (fs1 := {| fs_dirs := ds;
                 fs_files := store_all (generatedFiles o) (fs_files fs) |}) in *.
  assert (fs' = fs1) as -> by congruence. clear Hrun.
  assert (Hfiles : ∀ p, p ∈ paths (generatedFiles o) → p ∉ fs_dirs fs1).
  { intros p Hp. cbn [fs1 fs_dirs]. rewrite Hds.
    intros [?|?]; [by apply (H1 p)|].
    by apply (generated_files_in_created_dirs o p). }
  assert (Hdirs : ∀ d, d ∈ createdDirs o → d ∉ paths (fs_files fs1)).
  { intros d Hd. cbn [fs1 fs_files]. rewrite paths_store_all.
    intros [?|?]; [|by apply (H2 d)].
    by apply (generated_files_in_created_dirs o d). }
  destruct (generateProject_over o fs1 Hfiles Hdirs) as (ds2 & Hrun2 & _ & Hsame).
  rewrite Hrun2, Hsame.
  - unfold fs1 at 2. cbn [fs_files].
    by rewrite store_all_idempotent by apply generatedFiles_NoDup.
  - intros x Hx. apply Hds. by right.
Qed.

Lemma generateProject_idempotent_witness :
  generateProject "." demoFull
    {| fs_dirs := createdDirs demoFull; fs_files := generatedFiles demoFull |}
  = Normal (tt, {| fs_dirs := createdDirs demoFull;
                   fs_files := generatedFiles demoFull |}).
Proof.
  apply (generateProject_idempotent demoFull emptyFS).
  apply generateProject_run.
Defined.

Lemma generateProject_overwrites_witness :
  ∃ fs',
    generateProject "." demo
      {| fs_dirs := ["."; "docs"];
         fs_files := [("README.md", Text "old"); ("docs/notes.md", Text "kept")] |}
      = Normal (tt, fs') ∧
    file_at (fs_files fs') "README.md" = Some (Text (readmeContent demo)) ∧
    file_at (fs_files fs') "docs/notes.md" = Some (Text "kept").
Proof.
  destruct (generateProject_overwrites demo
    {| fs_dirs := ["."; "docs"];
       fs_files := [("README.md", Text "old"); ("docs/notes.md", Text "kept")] |})
    as (fs' & Hrun & Hnew & Hold & _).
  - apply Forall_forall. by_evaluation.
  - apply Forall_forall. by_evaluation.
  - exists fs'. split; [exact Hrun|]. split.
    + rewrite Hnew by by_evaluation. reflexivity.
    + rewrite Hold by by_evaluation. reflexivity.
Defined.

(** No generated path of one configuration is a created directory of
    another, and the other way round. *)
Lemma generated_not_created (o1 o2 : ProjectOptions) :
  (∀ p, p ∈ paths (generatedFiles o2) → p ∉ createdDirs o1) ∧
  (∀ d, d ∈ createdDirs o2 → d ∉ paths (generatedFiles o1)).
Proof.
  rewrite !generatedFiles_paths. unfold indexPath, createdDirs. split.
  - apply Forall_forall.
    destruct (language o2), (database o2), (database o1), (orm o1),
      (includes (features o1) auth), (includes (features o1) tests);
      by_evaluation.
  - apply Forall_forall.
    destruct (language o1), (database o1), (database o2), (orm o2),
      (includes (features o2) auth), (includes (features o2) tests);
      by_evaluation.
Qed.

(** X4.  Generating again with another configuration.  A run with a second
    configuration over the tree of a first completes; it writes the files
    of the second configuration and removes nothing: a file of the first
    configuration that the second does not write stays as it was, and so
    does every directory.  So the model stub outlives a change to no
    database, and [src/index.ts] a change to JavaScript. *)
Theorem regeneration_removes_nothing (o1 o2 : ProjectOptions) :
  ∃ fs',
    (generateProject "." o1 ;; generateProject "." o2) emptyFS = Normal (tt, fs') ∧
    (∀ p, p ∈ paths (generatedFiles o2) →
       file_at (fs_files fs') p = file_at (generatedFiles o2) p) ∧
    (∀ p, p ∉ paths (generatedFiles o2) →
       file_at (fs_files fs') p = file_at (generatedFiles o1) p) ∧
    (∀ x, x ∈ fs_dirs fs' ↔ x ∈ createdDirs o1 ∨ x ∈ createdDirs o2) ∧
    (database o1 = mongodb → database o2 = database_none →
       file_at (fs_files fs') "src/models/example.model.ts"
         = Some (Text (modelContent o1))) ∧
    (language o1 = typescript → language o2 = javascript →
       file_at (fs_files fs') "src/index.ts" = Some (Text (indexContent o1))).
Proof.
  destruct (generated_not_created o1 o2) as [H1 H2].
  destruct (generateProject_over o2
    {| fs_dirs := createdDirs o1; fs_files := generatedFiles o1 |} H1 H2)
    as (ds & Hrun & Hds & _).
  destruct (file_at_store_all_generated o2 (generatedFiles o1)) as [Hnew Hold].
  cbn [fs_dirs fs_files] in *.
  eexists. split.
  { apply (seq_run _ _ _ _ _ (generateProject_run o1) Hrun). }
  split; [exact Hnew|]. split; [exact Hold|]. split; [exact Hds|]. split.
  - intros Hd1 Hd2. rewrite Hold.
    + by rewrite file_at_model, Hd1.
    + rewrite generatedFiles_paths, Hd2. unfold indexPath.
      destruct (language o2); by_evaluation.
  - intros Hl1 Hl2. rewrite Hold.
    + pose proof (file_at_generatedFiles o1) as (_ & _ & _ & _ & _ & Hi & _).
      unfold indexPath in Hi. by rewrite Hl1 in Hi.
    + rewrite generatedFiles_paths. unfold indexPath. rewrite Hl2.
      destruct (database o2); by_evaluation.
Qed.

(** ** More on the resolver *)

Lemma authStrategy_is_true (o : ProjectOptions) (s : AuthStrategy) :
  authStrategy_is o s = true ↔ authStrategy o = Some s.
Proof. unfold authStrategy_is. apply bool_decide_eq_true. Qed.

(** X5.  Versions.  Every runtime dependency has the version [latest], and
    every development dependency a caret range. *)
Theorem dependency_versions (o : ProjectOptions) :
  map_Forall (λ _ version, version = "latest") (getDependencies o) ∧
  map_Forall (λ _ version, startsWith "^" version = true) (getDevDependencies o).
Proof.
  split.
  - cbv delta [getDependencies]; cbv beta. by_cases_on_tests.
  - cbv delta [getDevDependencies]; cbv beta. by_cases_on_tests.
Qed.

(** The runtime manifest lists known packages only. *)
Lemma getDependencies_keys (o : ProjectOptions) :
  map_Forall (λ package _, package ∈ runtimePackages) (getDependencies o).
Proof. cbv delta [getDependencies]; cbv beta. by_cases_on_tests. Qed.

(** X6.  The two manifests share one package at most: [@types/node], with
    TypeScript, where the runtime manifest says [latest] and the
    development manifest [^20.6.3]. *)
Theorem manifests_overlap (o : ProjectOptions) (package : string) :
  is_Some (getDependencies o !! package) →
  is_Some (getDevDependencies o !! package) →
  package = "@types/node" ∧ language o = typescript ∧
  getDependencies o !! package = Some "latest" ∧
  getDevDependencies o !! package = Some "^20.6.3".
Proof.
  intros [v Hr] Hd.
  pose proof (getDependencies_keys o package v Hr) as Hk. cbn beta in Hk.
  assert (H : Forall (λ package,
    is_Some (getDevDependencies o !! package) →
    package = "@types/node" ∧ language o = typescript ∧
    getDevDependencies o !! package = Some "^20.6.3") runtimePackages).
  { cbv delta [getDevDependencies]; cbv beta.
    destruct (language o); decide_tests; by_cases_on_tests. }
  destruct (proj1 (Forall_forall _ _) H package Hk Hd) as (-> & ? & ?).
  pose proof (getDependencies_base o) as (? & _). done.
Qed.

Lemma manifests_overlap_witness :
  getDependencies demoFull !! "@types/node" = Some "latest" ∧
  getDevDependencies demoFull !! "@types/node" = Some "^20.6.3".
Proof.
  apply (manifests_overlap demoFull "@types/node"); by_evaluation.
Defined.

(** X7.  Authentication packages.  [passport], [express-session] and
    [bcrypt] are listed exactly when [auth] is a feature, and the packages
    of a strategy exactly when [auth] is a feature and the strategy is the
    selected one. *)
Theorem authentication_packages (o : ProjectOptions) :
  (∀ package, package ∈ ["passport"; "express-session"; "bcrypt"] →
     (is_Some (getDependencies o !! package) ↔ auth ∈ features o)) ∧
  (∀ s package, package ∈ strategyPackages s →
     (is_Some (getDependencies o !! package) ↔
      auth ∈ features o ∧ authStrategy o = Some s)).
Proof.
  split.
  - apply Forall_forall. setoid_rewrite <- includes_true.
    cbv delta [getDependencies]; cbv beta. by_cases_on_tests.
  - intros s. apply Forall_forall. setoid_rewrite <- includes_true.
    cbv delta [getDependencies authStrategy_is]; cbv beta.
    destruct s, (authStrategy o) as [[]|]; decide_tests; by_cases_on_tests.
Qed.

(** X8.  Validation packages.  [joi] is listed exactly when [validation] is
    a feature and the library is joi, [zod] exactly when it is zod; never
    both. *)
Theorem validation_packages (o : ProjectOptions) :
  (is_Some (getDependencies o !! "joi") ↔
   validation ∈ features o ∧ validationLibrary o = Some joi) ∧
  (is_Some (getDependencies o !! "zod") ↔
   validation ∈ features o ∧ validationLibrary o = Some zod) ∧
  ¬ (is_Some (getDependencies o !! "joi") ∧ is_Some (getDependencies o !! "zod")).
Proof.
  rewrite <- !includes_true.
  cbv delta [getDependencies validationLibrary_is]; cbv beta.
  destruct (validationLibrary o) as [[]|]; decide_tests; by_cases_on_tests.
Qed.

(** X9.  Database and documentation packages.  The driver [mongodb] is
    listed exactly with the database [mongodb], [mongoose] exactly with
    the ORM [mongoose], and the two swagger packages exactly with the
    feature [swagger]. *)
Theorem database_and_swagger_packages (o : ProjectOptions) :
  (is_Some (getDependencies o !! "mongodb") ↔ database o = mongodb) ∧
  (is_Some (getDependencies o !! "mongoose") ↔ orm o = mongoose) ∧
  (∀ package, package ∈ ["swagger-ui-express"; "swagger-jsdoc"] →
     (is_Some (getDependencies o !! package) ↔ swagger ∈ features o)).
Proof.
  split; [|split].
  - cbv delta [getDependencies isDatabaseMongoDB]; cbv beta.
    destruct (database o); decide_tests; by_cases_on_tests.
  - cbv delta [getDependencies isORMMongoose]; cbv beta.
    destruct (orm o); decide_tests; by_cases_on_tests.
  - apply Forall_forall. setoid_rewrite <- includes_true.
    cbv delta [getDependencies]; cbv beta. by_cases_on_tests.
Qed.

(** X10.  The development manifest by language and tests.  The linter, the
    formatter and [nodemon] are always listed; the TypeScript tools
    exactly with TypeScript; [jest] and [supertest] exactly with the
    feature [tests]; their TypeScript companions exactly with both. *)
Theorem development_packages (o : ProjectOptions) :
  (∀ package, package ∈ ["nodemon"; "eslint"; "prettier"] →
     is_Some (getDevDependencies o !! package)) ∧
  (∀ package,
     package ∈ ["typescript"; "@types/node"; "ts-node"; "tsconfig-paths";
                "rimraf"; "@typescript-eslint/eslint-plugin";
                "@typescript-eslint/parser"] →
     (is_Some (getDevDependencies o !! package) ↔ language o = typescript)) ∧
  (∀ package, package ∈ ["jest"; "supertest"] →
     (is_Some (getDevDependencies o !! package) ↔ tests ∈ features o)) ∧
  (∀ package, package ∈ ["ts-jest"; "@types/jest"; "@types/supertest"] →
     (is_Some (getDevDependencies o !! package) ↔
      tests ∈ features o ∧ language o = typescript)).
Proof.
  split; [|split; [|split]]; apply Forall_forall;
    try setoid_rewrite <- includes_true;
    cbv delta [getDevDependencies]; cbv beta;
    destruct (language o), (framework o); decide_tests; by_cases_on_tests.
Qed.

(** ** The scripts of the manifest *)

(** X11.  Scripts and what they need.  The [test] script runs [jest]
    exactly when the development manifest lists it, the [build] script
    runs [tsc] exactly when it lists [typescript], and the JavaScript
    [dev] script runs [nodemon], which is always listed.  The [start]
    script runs the [main] file: with JavaScript a generated file, with
    TypeScript [dist/index.js], which generation does not write. *)
Theorem scripts_and_tools (o : ProjectOptions) :
  (script_test (pkg_scripts (packageJson o)) = "jest" ↔
   is_Some (getDevDependencies o !! "jest")) ∧
  (script_build (pkg_scripts (packageJson o)) = "tsc" ↔
   is_Some (getDevDependencies o !! "typescript")) ∧
  (language o = javascript →
   script_dev (pkg_scripts (packageJson o)) = "nodemon src/index.js" ∧
   is_Some (getDevDependencies o !! "nodemon")) ∧
  script_start (pkg_scripts (packageJson o)) = "node " +:+ pkg_main (packageJson o) ∧
  (language o = javascript →
   pkg_main (packageJson o) = indexPath o ∧
   pkg_main (packageJson o) ∈ paths (generatedFiles o)) ∧
  (language o = typescript →
   pkg_main (packageJson o) = "dist/index.js" ∧
   pkg_main (packageJson o) ∉ paths (generatedFiles o)).
Proof.
  rewrite generatedFiles_paths. unfold indexPath.
  cbv delta [packageJson getDevDependencies]; cbv beta zeta.
  cbn [pkg_scripts pkg_main script_test script_build script_dev script_start].
  destruct (language o), (framework o), (database o); decide_tests;
    by_cases_on_tests.
Qed.

(** ** The shape of the environment file *)


(** ** The feature [docker] *)

(** X13.  Selecting [docker] changes nothing: two configurations that
    differ in that feature only get the same directories and the same
    files, with the same contents. *)
Theorem docker_changes_nothing (o o' : ProjectOptions) :
  same_but_docker o o' →
  generateProject "." o' emptyFS = generateProject "." o emptyFS.
Proof.
  intros (Hn & Hl & Hf & Hd & Hr & Hfs & Hv & Ha).
  rewrite !generateProject_run.
  destruct o as [n l f d r fs vl st], o' as [n' l' f' d' r' fs' vl' st'].
  cbn [name language framework database orm features validationLibrary
       authStrategy] in *. subst n' l' f' d' r' vl' st'.
  assert (Hi : ∀ g, g ≠ docker → includes fs' g = includes fs g).
  { intros g Hg. unfold includes. apply bool_decide_ext. symmetry. by apply Hfs. }
  cbv delta [createdDirs generatedFiles packageJson getDependencies
    getDevDependencies envContent readmeContent indexPath indexContent
    indexImports indexConnect indexBody routeContent modelContent
    authStrategy_is validationLibrary_is]; cbv beta.
  cbn [name language framework database orm features validationLibrary
       authStrategy].
  rewrite !(Hi auth), !(Hi validation), !(Hi swagger), !(Hi tests) by done.
  reflexivity.
Qed.

Lemma docker_changes_nothing_witness :
  generateProject "." demoFull emptyFS =
  generateProject "." 
    {| name := "demo"; language := typescript; framework := express;
       database := mongodb; orm := mongoose;
       features := [auth; validation; swagger; tests];
       validationLibrary := Some zod; authStrategy := Some oauth |} emptyFS.
Proof.
  apply docker_changes_nothing. unfold same_but_docker.
  cbn [name language framework database orm features validationLibrary
       authStrategy].
  split_and!; try reflexivity.
  intros f Hf. destruct f; try done; by_evaluation.
Defined.

(** ** The imports of the entry point *)



(** ** The prompts *)

Lemma bind_inv {A B : Type} (m : Promise A) (k : A → Promise B)
    (fs fs2 : FileSystem) (b : B) :
  (m ≫= k) fs = Normal (b, fs2) →
  ∃ a fs1, m fs = Normal (a, fs1) ∧ k a fs1 = Normal (b, fs2).
Proof.
  unfold mbind, Promise_bind. destruct (m fs) as [[a fs1]|e]; [|done].
  intros H. by exists a, fs1.
Qed.

Lemma select_inv {T : Type} (choices : list (Choice T)) (answer : nat)
    (fs fs' : FileSystem) (v : T) :
  select choices answer fs = Normal (v, fs') →
  fs' = fs ∧ v ∈ choice_value <$> choices ∧ answer < length choices.
Proof.
  unfold select. destruct (choices !! answer) as [c|] eqn:Hc; [|done].
  intros [= <- <-]. split; [done|]. split.
  - apply list_elem_of_fmap. exists c. split; [done|].
    by apply list_elem_of_lookup_2 with answer.
  - by apply lookup_lt_Some with c.
Qed.


(** What the feature checkbox returns for the ticks. *)
Lemma checkbox_features (answer : list nat) (fs fs' : FileSystem)
    (features : list Feature) :
  checkbox [
    {| choice_name := "Authentication (Passport)"; choice_value := auth |};
    {| choice_name := "Validation"; choice_value := validation |};
    {| choice_name := "Swagger/OpenAPI Documentation"; choice_value := swagger |};
    {| choice_name := "Docker"; choice_value := docker |};
    {| choice_name := "Testing (Jest)"; choice_value := tests |}
  ] answer fs = Normal (features, fs') →
  fs' = fs ∧ NoDup features ∧
  (auth ∈ features ↔ 0 ∈ answer) ∧
  (validation ∈ features ↔ 1 ∈ answer) ∧
  (swagger ∈ features ↔ 2 ∈ answer) ∧
  (docker ∈ features ↔ 3 ∈ answer) ∧
  (tests ∈ features ↔ 4 ∈ answer).
Proof.
  unfold checkbox. intros [= <- <-]. split; [done|]. cbn.
  repeat case_bool_decide; cbn; (split; [by_evaluation|]); split_and!;
    first
      [ split; [intros _; assumption | intros _; by_evaluation]
      | split; [intros Hin; exfalso; revert Hin; by_evaluation
               | intros ?; contradiction] ].
Qed.

(** Whenever the prompts return a configuration, every prompt shown was
    answered with one of its choices, no file was touched, and the
    configuration has the given name, Express, MongoDB and mongoose, a
    validation library exactly with the feature [validation] and a
    strategy exactly with the feature [auth]. *)
Lemma collectOptions_inv (projectName : string) (answers : Answers)
    (fs fs' : FileSystem) (o : ProjectOptions) :
  collectOptions projectName answers fs = Normal (o, fs') →
  fs' = fs ∧ answered answers ∧
  name o = projectName ∧ framework o = express ∧
  database o = mongodb ∧ orm o = mongoose ∧
  NoDup (features o) ∧
  (is_Some (validationLibrary o) ↔ validation ∈ features o) ∧
  (is_Some (authStrategy o) ↔ auth ∈ features o) ∧
  isConsistent o = valid_name projectName.
Proof.
  unfold collectOptions. intros H.
  apply bind_inv in H as (lang & fs1 & (-> & _ & Hl)%select_inv & H).
  apply bind_inv in H as (fw & fs1 & (-> & Hf & Hf')%select_inv & H).
  apply bind_inv in H as (db & fs1 & (-> & Hd & Hd')%select_inv & H).
  cbv zeta in H.
  apply bind_inv in H as (om & fs1 & (-> & Hr & Hr')%select_inv & H).
  apply bind_inv in H
    as (fts & fs1 & (-> & Hnd & Ha & Hv & _)%checkbox_features & H).
  apply bind_inv in H as (vl & fs1 & Hvl & H).
  apply bind_inv in H as (st & fs2 & Hst & H).
  injection H as <- <-.
  cbn in Hf, Hd, Hr, Hl, Hf', Hd', Hr'.
  apply list_elem_of_singleton in Hf as ->.
  apply list_elem_of_singleton in Hd as ->.
  apply list_elem_of_singleton in Hr as ->.
  assert (Hvl' : fs1 = fs ∧ (is_Some vl ↔ validation ∈ fts) ∧
                 (1 ∈ answer_features answers → answer_validationLibrary answers < 2)).
  { destruct (includes fts validation) eqn:Hi.
    - apply bind_inv in Hvl as (v & fs3 & (-> & _ & Hlt)%select_inv & [= <- <-]).
      apply includes_true in Hi. split; [done|]. split; [|done].
      split; [done | by eexists].
    - injection Hvl as <- <-. apply includes_false in Hi.
      split; [done|]. split; [split; [by intros [? [=]] | done]|].
      intros ?. destruct Hi. by apply Hv. }
  destruct Hvl' as (-> & Hvl' & Hva).
  assert (Hst' : fs2 = fs ∧ (is_Some st ↔ auth ∈ fts) ∧
                 (0 ∈ answer_features answers → answer_authStrategy answers < 3)).
  { destruct (includes fts auth) eqn:Hi.
    - apply bind_inv in Hst as (v & fs3 & (-> & _ & Hlt)%select_inv & [= <- <-]).
      apply includes_true in Hi. split; [done|]. split; [|done].
      split; [done | by eexists].
    - injection Hst as <- <-. apply includes_false in Hi.
      split; [done|]. split; [split; [by intros [? [=]] | done]|].
      intros ?. destruct Hi. by apply Ha. }
  destruct Hst' as (-> & Hst' & Hsa).
  cbn [name framework database orm features validationLibrary authStrategy].
  split; [done|]. split; [by repeat split|].
  split_and!; try done.
  unfold isConsistent.
  cbn [name framework database orm features validationLibrary authStrategy].
  by rewrite !bool_decide_eq_true_2.
Qed.

Lemma bind_run {A B : Type} (m : Promise A) (k : A → Promise B)
    (fs fs1 : FileSystem) (a : A) :
  m fs = Normal (a, fs1) → (m ≫= k) fs = k a fs1.
Proof. unfold mbind, Promise_bind. by intros ->. Qed.





(** *** [createProject] *)

(** X15.  What a created project is.  Whenever [createProject] ends with
    a project, every prompt was answered; in an existing directory the user
    confirmed; the configuration generated has the given name, Express,
    MongoDB and mongoose, a validation library exactly with the feature
    [validation] and a strategy exactly with the feature [auth], so it is
    consistent as soon as the name is valid; the generated files have their
    generated content, every other file of the directory is as it was, and
    no directory is removed. *)
Theorem createProject_created (projectName : string) (answers : Answers)
    (fs fs' : FileSystem) :
  createProject projectName answers fs = Created fs' →
  answered answers ∧
  (existsSync "." fs = true → answer_continue answers = true) ∧
  ∃ o,
    generateProject "." o fs = Normal (tt, fs') ∧
    name o = projectName ∧ framework o = express ∧
    database o = mongodb ∧ orm o = mongoose ∧
    (is_Some (validationLibrary o) ↔ validation ∈ features o) ∧
    (is_Some (authStrategy o) ↔ auth ∈ features o) ∧
    isConsistent o = valid_name projectName ∧
    (∀ p, p ∈ paths (generatedFiles o) →
       file_at (fs_files fs') p = file_at (generatedFiles o) p) ∧
    (∀ p, p ∉ paths (generatedFiles o) →
       file_at (fs_files fs') p = file_at (fs_files fs) p) ∧
    (∀ d, d ∈ fs_dirs fs' ↔ d ∈ fs_dirs fs ∨ d ∈ createdDirs o).
Proof.
  unfold createProject. cbv zeta.
  destruct (existsSync "." fs && negb (answer_continue answers)) eqn:Hc; [done|].
  lazymatch goal with
  | |- context [match ?r with Normal _ => _ | Throw _ => _ end] =>
      destruct r as [[[] fs1]|e] eqn:Hrun; [|done]
  end.
  intros [= ->].
  apply bind_inv in Hrun as (o & fs0 & Ho & Hrun).
  apply collectOptions_inv in Ho
    as (-> & Ha & Hn & Hf & Hd & Hr & _ & Hv & Hs & Hcons).
  split; [exact Ha|]. split.
  { intros He. rewrite He in Hc. by destruct (answer_continue answers). }
  exists o. split; [exact Hrun|]. split_and!; try done.
  all: destruct (generateProject_inv o fs fs' Hrun) as [H1 H2];
    destruct (generateProject_over o fs H1 H2) as (ds & Hrun' & Hds & _);
    rewrite Hrun' in Hrun; injection Hrun as <-; cbn [fs_files fs_dirs];
    destruct (file_at_store_all_generated o (fs_files fs)) as [Hnew Hold];
    done.
Qed.

Lemma createProject_created_witness :
  ∃ o, generateProject "." o emptyFS
         = Normal (tt, {| fs_dirs := createdDirs demo;
                          fs_files := generatedFiles demo |}) ∧
       database o = mongodb.
Proof.
  destruct (createProject_created "demo"
    {| answer_continue := false; answer_language := 0; answer_framework := 0;
       answer_database := 0; answer_orm := 0; answer_features := [];
       answer_validationLibrary := 0; answer_authStrategy := 0 |}
    emptyFS {| fs_dirs := createdDirs demo; fs_files := generatedFiles demo |})
    as (_ & _ & o & Hrun & _ & _ & Hd & _).
  - unfold createProject. cbv zeta.
    change (existsSync "." emptyFS && negb false) with false. cbv iota.
    rewrite (bind_run _ _ emptyFS emptyFS demo) by reflexivity.
    by rewrite generateProject_run.
  - by exists o.
Defined.


